(** * serles-acme: the ACME.sh backend ([serles/backends/acmesh.py])

    A shallow embedding of [AcmeSHBackend]: the constructor [__init__], the
    credential-block translator [_parse_dns_plugin_config] and the signing
    call [sign], followed by the properties of the specification that can be
    settled on them.

    Python values are modelled as follows.
    - [str] is a list of Unicode code points ([N]); [bytes] is a list of
      [Byte.byte].
    - a [dict] from [str] to [str] is a [gmap str str].
    - a call that may raise returns an [outcome]; code that touches the
      operating system runs in a state-and-exception monad over an abstract
      operating-system interface ([OS]), which also records the trace of
      the calls made and their answers. *)

From Stdlib Require Import ZArith NArith List DecimalString.
From Stdlib.Strings Require Import Ascii String Byte.
From stdpp Require Import gmap list fin_maps.

Local Open Scope N_scope.
#[local] Set Warnings "-clear-no-such-hyp".

(** ** Python strings *)

Abbreviation str := (list N).
Abbreviation bytes := (list byte).

(** An ASCII literal as a [str]. *)
Definition u (s : string) : str := map N_of_ascii (list_ascii_of_string s).

(** An ASCII literal as [bytes]. *)
Definition b (s : string) : bytes := list_byte_of_string s.

(** [c.isspace()], the characters removed by [str.strip()]. *)
Definition isspace (c : N) : bool :=
  ((9 <=? c) && (c <=? 13)) || ((28 <=? c) && (c <=? 32))
  || (c =? 133) || (c =? 160) || (c =? 5760)
  || ((8192 <=? c) && (c <=? 8202))
  || (c =? 8232) || (c =? 8233) || (c =? 8239) || (c =? 8287) || (c =? 12288).

(** The line boundaries of [str.splitlines()]. *)
Definition islinebreak (c : N) : bool :=
  ((10 <=? c) && (c <=? 13)) || ((28 <=? c) && (c <=? 30))
  || (c =? 133) || (c =? 8232) || (c =? 8233).

Definition CR : N := 13.
Definition LF : N := 10.
Definition EQUALS : N := 61.

Fixpoint lstrip (s : str) : str :=
  match s with
  | [] => []
  | c :: s' => if isspace c then lstrip s' else s
  end.

Fixpoint rstrip (s : str) : str :=
  match s with
  | [] => []
  | c :: s' =>
      match rstrip s' with
      | [] => if isspace c then [] else [c]
      | r => c :: r
      end
  end.

(** [s.strip()] *)
Definition strip (s : str) : str := rstrip (lstrip s).

(** [s.splitlines()]: the text is cut at every line boundary, [\r\n] counts
    as one boundary, and a final boundary opens no further line. *)
Fixpoint splitlines (s : str) : list str :=
  match s with
  | [] => []
  | c :: s' =>
      if islinebreak c then
        [] :: match s' with
              | c' :: s'' =>
                  if (c =? CR) && (c' =? LF) then splitlines s'' else splitlines s'
              | [] => []
              end
      else
        match splitlines s' with
        | [] => [[c]]
        | l :: ls => (c :: l) :: ls
        end
  end.

(** [s.partition(sep)] for a one-character separator: the text before the
    first occurrence, the separator, the text after; when the separator does
    not occur, the whole text and two empty strings. *)
Fixpoint partition (sep : N) (s : str) : str * str * str :=
  match s with
  | [] => ([], [], [])
  | c :: s' =>
      if c =? sep then ([], [sep], s')
      else let '(h, m, t) := partition sep s' in (c :: h, m, t)
  end.

(** [sep in s] *)
Definition contains_char (sep : N) (s : str) : bool := existsb (N.eqb sep) s.

(** Truth value of a [str]: non-empty. *)
Definition str_truthy (s : str) : bool :=
  match s with [] => false | _ => true end.

(** [str(n)] for an [int]. *)
Definition str_of_int (z : Z) : str := u (NilZero.string_of_int (Z.to_int z)).

(** ** Exceptions and outcomes *)

Inductive exn :=
| Exception (msg : str)
| RuntimeError (msg : str)
| TypeError
| IndexError
| UnicodeDecodeError
| TimeoutExpired
| OSError (what : str).

Inductive outcome (A : Type) :=
| Returned (a : A)
| Raised (e : exn).
Arguments Returned {A} a.
Arguments Raised {A} e.

Definition obind {A B} (o : outcome A) (k : A -> outcome B) : outcome B :=
  match o with
  | Returned a => k a
  | Raised e => Raised e
  end.

(** An expression statement: the expression is evaluated and its value is
    dropped. Building an exception object raises nothing. *)
Definition expr_stmt {A} (_ : A) : outcome unit := Returned tt.

(** ** The credential-block translator *)

(** One turn of the [for] loop of [_parse_dns_plugin_config]. *)
Definition parse_line (config_dict : gmap str str) (line : str)
  : outcome (gmap str str) :=
  let line := strip line in
  obind (if negb (str_truthy line) || negb (contains_char EQUALS line)
         then expr_stmt
                (RuntimeError (u "Malformed dns_plugin_config line: '" ++ line ++ u "'"))
         else Returned tt)
    (fun _ =>
       let '(key, _, value) := partition EQUALS line in
       let key := strip key in
       let value := strip value in
       Returned (<[key := value]> config_dict)).

Fixpoint parse_lines (config_dict : gmap str str) (lines : list str)
  : outcome (gmap str str) :=
  match lines with
  | [] => Returned config_dict
  | line :: rest =>
      obind (parse_line config_dict line) (fun d => parse_lines d rest)
  end.

Definition _parse_dns_plugin_config (config_str : str) : outcome (gmap str str) :=
  parse_lines ∅ (splitlines (strip config_str)).

(** ** Values read from the configuration, and [bytes.decode("utf-8")] *)

(** The values that end up in the argument list of the child process: an
    option read from [config.ini] is a [str]; the two fallbacks of
    [__init__] are an [int] and a [bool]. *)
Inductive pyval :=
| PyStr (s : str)
| PyInt (z : Z)
| PyBool (v : bool).

Definition truthy (v : pyval) : bool :=
  match v with
  | PyStr s => str_truthy s
  | PyInt z => negb (z =? 0)%Z
  | PyBool v => v
  end.

Definition in_range (lo hi x : N) : bool := (lo <=? x) && (x <=? hi).

Definition continuation (x : N) : bool := in_range 128 191 x.

(** Second byte allowed after the lead byte of a three-byte sequence. *)
Definition second_of3 (x0 x1 : N) : bool :=
  if x0 =? 224 then in_range 160 191 x1
  else if x0 =? 237 then in_range 128 159 x1
  else continuation x1.

(** Second byte allowed after the lead byte of a four-byte sequence. *)
Definition second_of4 (x0 x1 : N) : bool :=
  if x0 =? 240 then in_range 144 191 x1
  else if x0 =? 244 then in_range 128 143 x1
  else continuation x1.

(** The strict UTF-8 decoder: [None] where Python raises
    [UnicodeDecodeError]. *)
Fixpoint utf8 (bs : bytes) : option str :=
  match bs with
  | [] => Some []
  | b0 :: r0 =>
      let x0 := Byte.to_N b0 in
      if x0 <? 128 then cons x0 <$> utf8 r0
      else
        match r0 with
        | [] => None
        | b1 :: r1 =>
            let x1 := Byte.to_N b1 in
            if in_range 194 223 x0 then
              if continuation x1
              then cons ((x0 - 192) * 64 + (x1 - 128)) <$> utf8 r1
              else None
            else
              match r1 with
              | [] => None
              | b2 :: r2 =>
                  let x2 := Byte.to_N b2 in
                  if in_range 224 239 x0 then
                    if second_of3 x0 x1 && continuation x2
                    then cons ((x0 - 224) * 4096 + (x1 - 128) * 64 + (x2 - 128))
                           <$> utf8 r2
                    else None
                  else
                    match r2 with
                    | [] => None
                    | b3 :: r3 =>
                        let x3 := Byte.to_N b3 in
                        if in_range 240 244 x0 && second_of4 x0 x1
                           && continuation x2 && continuation x3
                        then cons ((x0 - 240) * 262144 + (x1 - 128) * 4096
                                   + (x2 - 128) * 64 + (x3 - 128))
                               <$> utf8 r3
                        else None
                    end
              end
        end
  end.

(** [bs.decode("utf-8")] *)
Definition decode_utf8 (bs : bytes) : outcome str :=
  match utf8 bs with
  | Some s => Returned s
  | None => Raised UnicodeDecodeError
  end.

(** ** The backend object *)

Record AcmeSHBackend := {
  acmesh_binary_path : str;
  acmesh_home_path : str;
  dns_plugin : str;
  dns_plugin_config : str;
  dns_sleep_time : pyval;
  debug_mode : pyval
}.

(** [subprocess.CompletedProcess] *)
Record CompletedProcess := {
  returncode : Z;
  stdout : bytes
}.

(** ** The operating system *)

(** How the run of a child under a deadline ends: it exits after [elapsed]
    seconds, it is still running at the deadline and is killed, or it could
    not be started. *)
Inductive child_result :=
| Exited (elapsed : N) (rc : Z) (output : bytes)
| Expired
| NotStarted (e : exn).

(** What [sign] and [__init__] ask of the operating system, over a state of
    the world [W]. Failing calls answer with the exception Python raises. *)
Class OS (W : Type) := {
  (** [os.access(path, os.X_OK)] *)
  os_access_X_OK : W -> str -> bool;
  (** [os.path.exists(path)] *)
  os_path_exists : W -> str -> bool;
  (** [os.environ], the environment of the running process *)
  os_environ : W -> gmap str str;
  (** the directory made by [tempfile.TemporaryDirectory(prefix=...)] *)
  mkdtemp : str -> W -> outcome str * W;
  (** [open(path, "wb")] followed by [write] and close *)
  write_binary : str -> bytes -> W -> outcome unit * W;
  (** [os.makedirs(path, exist_ok=True)] *)
  os_makedirs : str -> W -> outcome unit * W;
  (** the child is run with this argument vector, this environment and this
      deadline in seconds; its standard output and error are captured
      together *)
  run_child : list str -> gmap str str -> N -> W -> child_result * W;
  (** [open(path, "r")] followed by [read] and close *)
  read_text : str -> W -> outcome str * W;
  (** the cleanup of a [TemporaryDirectory] *)
  rmtree : str -> W -> W
}.

(** What the properties below assume of an operating system: a tree that
    was removed is gone, and a child reported as exited did so within its
    deadline. *)
Class LawfulOS (W : Type) `{OS W} : Prop := {
  rmtree_gone : forall d w, os_path_exists (rmtree d w) d = false;
  run_child_deadline : forall argv env t w n rc out w',
    run_child argv env t w = (Exited n rc out, w') -> n <= t
}.

(** The calls made to the operating system and their answers, in the order
    they were made. The trace is not program state: it only lets the
    properties below speak about what a call of [sign] did. *)
Inductive event :=
| Mkdtemp (prefix : str) (r : outcome str)
| WriteBinary (path : str) (data : bytes) (r : outcome unit)
| Makedirs (path : str) (r : outcome unit)
| RunChild (argv : list str) (env : gmap str str) (timeout : N) (r : child_result)
| ReadText (path : str) (r : outcome str)
| Rmtree (path : str).

(** Seconds spent waiting for child processes. *)
Fixpoint waited (tr : list event) : N :=
  match tr with
  | [] => 0
  | RunChild _ _ _ (Exited n _ _) :: tr' => n + waited tr'
  | RunChild _ _ timeout Expired :: tr' => timeout + waited tr'
  | _ :: tr' => waited tr'
  end.

Section Backend.
Context {W : Type} `{OS W}.

(** Computations that read and change the world and may raise. *)
Definition M (A : Type) : Type :=
  W * list event -> outcome A * (W * list event).

Definition ret {A} (a : A) : M A := fun s => (Returned a, s).

Definition bind {A B} (m : M A) (k : A -> M B) : M B :=
  fun s =>
    match m s with
    | (Returned a, s') => k a s'
    | (Raised e, s') => (Raised e, s')
    end.

(** A call that cannot touch the world. *)
Definition pure {A} (o : outcome A) : M A := fun s => (o, s).

(** A call of the operating system, recorded with its answer. *)
Definition sys {A} (f : W -> A * W) (ev : A -> event)
  : W * list event -> A * (W * list event) :=
  fun s => let '(r, w') := f s.1 in (r, (w', s.2 ++ [ev r])).

(** [with tempfile.TemporaryDirectory(prefix=prefix) as tmpdir: body]:
    the directory is removed when the body is left, by [return] or by an
    exception. *)
Definition with_TemporaryDirectory {A} (prefix : str) (body : str -> M A) : M A :=
  fun s =>
    match sys (mkdtemp prefix) (Mkdtemp prefix) s with
    | (Returned tmpdir, s') =>
        let '(r, (w'', tr'')) := body tmpdir s' in
        (r, (rmtree tmpdir w'', tr'' ++ [Rmtree tmpdir]))
    | (Raised e, s') => (Raised e, s')
    end.

(** The argument vector handed to [execve]: every element of the list
    must be a [str], anything else is a [TypeError]. *)
Fixpoint argv_of (cmd : list pyval) : outcome (list str) :=
  match cmd with
  | [] => Returned []
  | PyStr s :: rest => obind (argv_of rest) (fun r => Returned (s :: r))
  | _ :: _ => Raised TypeError
  end.

(** [subprocess.run(cmd, stdout=PIPE, stderr=STDOUT, env=env, check=False,
    timeout=timeout)] *)
Definition subprocess_run (cmd : list pyval) (env : gmap str str) (timeout : N)
  : M CompletedProcess :=
  bind (pure (argv_of cmd)) (fun argv =>
  fun s =>
    match sys (run_child argv env timeout) (RunChild argv env timeout) s with
    | (Exited _ rc out, s') => (Returned {| returncode := rc; stdout := out |}, s')
    | (Expired, s') => (Raised TimeoutExpired, s')
    | (NotStarted e, s') => (Raised e, s')
    end).

(** [l[0]] *)
Definition first_item (l : list str) : outcome str :=
  match l with
  | [] => Raised IndexError
  | x :: _ => Returned x
  end.

(** [config["acmesh"].get(key, fallback)] *)
Definition get (section : gmap str str) (key : str) (fallback : pyval) : pyval :=
  match section !! key with
  | Some v => PyStr v
  | None => fallback
  end.

(** [AcmeSHBackend.__init__]; the configuration is the parsed
    [config.ini]: sections of options, every option a [str]. *)
Definition __init__ (w : W) (config : gmap str (gmap str str))
  : outcome AcmeSHBackend :=
  match config !! u "acmesh" with
  | None => Raised (Exception (u "acmesh section missing from config.ini"))
  | Some section =>
      let binary := default (u "/root/.acme.sh/acme.sh")
                      (section !! u "acmesh_binary_path") in
      if negb (os_access_X_OK w binary)
      then Raised (Exception (u "ACME.sh '" ++ binary ++ u "' not executable"))
      else
        let home := default (u "/root/.acme.sh") (section !! u "acmesh_home_path") in
        if negb (os_path_exists w home)
        then Raised (Exception
                       (u "ACME.sh home path '" ++ home ++ u "' does not exist."))
        else
          match section !! u "dns_plugin" with
          | Some ((_ :: _) as plugin) =>
              match section !! u "dns_plugin_config" with
              | Some ((_ :: _) as plugin_config) =>
                  Returned
                    {| acmesh_binary_path := binary;
                       acmesh_home_path := home;
                       dns_plugin := plugin;
                       dns_plugin_config := plugin_config;
                       dns_sleep_time := get section (u "dns_sleep_time") (PyInt 300);
                       debug_mode := get section (u "debug_mode") (PyBool false) |}
              | _ =>
                  Raised (Exception
                    (u "Please specify a dns_plugin_config in acmesh section of config.ini"))
              end
          | _ =>
              Raised (Exception
                (u "Please specify a dns_plugin in acmesh section of config.ini"))
          end
  end.

(** The list [cmd] built by [sign]. *)
Definition command (self : AcmeSHBackend) (csr_file fullchain_file : str)
  : list pyval :=
  let cmd :=
    [ PyStr (acmesh_binary_path self);
      PyStr (u "--sign-csr");
      PyStr (u "--csr"); PyStr csr_file;
      PyStr (u "--dns"); PyStr (dns_plugin self);
      PyStr (u "--fullchain-file"); PyStr fullchain_file;
      PyStr (u "--home"); PyStr (acmesh_home_path self);
      PyStr (u "--dnssleep"); dns_sleep_time self ] in
  if truthy (debug_mode self) then cmd ++ [PyStr (u "--debug")] else cmd.

(** The path of the certificate chain written by the client. *)
Definition fullchain_path (self : AcmeSHBackend) (san : str) : str :=
  acmesh_home_path self ++ u "/certificates/" ++ san ++ u ".pem".

(** The message returned when the client fails. *)
Definition failure_message (rc : Z) (output : str) : str :=
  u "acme.sh exited with error " ++ str_of_int rc ++ u " and output:"
    ++ [LF] ++ output.

(** [AcmeSHBackend.sign]: the pair (certificate chain, error), [None]
    being the absent component. *)
Definition sign (self : AcmeSHBackend) (csr : bytes) (subjectDN : str)
    (subjectAltNames : list str) (email : str)
  : M (option str * option str) :=
  with_TemporaryDirectory (u "serles-acmesh") (fun tmpdir =>
    let csr_file := tmpdir ++ u "/csr.pem" in
    bind (sys (write_binary csr_file csr) (WriteBinary csr_file csr)) (fun _ =>
    let certificates := acmesh_home_path self ++ u "/certificates/" in
    bind (sys (os_makedirs certificates) (Makedirs certificates)) (fun _ =>
    bind (pure (first_item subjectAltNames)) (fun san =>
    let fullchain_file := fullchain_path self san in
    let cmd := command self csr_file fullchain_file in
    bind (pure (_parse_dns_plugin_config (dns_plugin_config self))) (fun env =>
    bind (subprocess_run cmd env 900) (fun res =>
    bind (pure (decode_utf8 (stdout res))) (fun output =>
    let read_chain :=
      bind (sys (read_text fullchain_file) (ReadText fullchain_file)) (fun chain =>
      ret (Some chain, None)) in
    if (returncode res =? 2)%Z then read_chain
    else if negb (returncode res =? 0)%Z
         then ret (None, Some (failure_message (returncode res) output))
         else read_chain))))))).

End Backend.

(** ** A small machine implementing the operating-system interface

    Files and directories in memory, and an ACME client whose behaviour is a
    function of its argument vector and environment. The general properties
    below hold for every implementation of [OS]; this one supplies concrete
    runs. *)

(** What the client does in one run: how long it runs ([None]: for ever),
    its exit code, what it prints, the files it leaves behind. *)
Record behaviour := {
  runtime : option N;
  exit_code : Z;
  printed : bytes;
  written : gmap str bytes
}.

Record machine := {
  files : gmap str bytes;
  dirs : gset str;
  executables : gset str;
  environ : gmap str str;
  temp_serial : N;
  client : list str -> gmap str str -> behaviour
}.

(** The text-mode reading of newlines: [\r\n] and [\r] are read as [\n]. *)
Fixpoint universal_newlines (s : str) : str :=
  match s with
  | [] => []
  | c :: s' =>
      if c =? CR then
        LF :: match s' with
              | c' :: s'' =>
                  if c' =? LF then universal_newlines s'' else universal_newlines s'
              | [] => []
              end
      else c :: universal_newlines s'
  end.

(** [p] is the directory [d] or lies below it. *)
Definition under (d p : str) : Prop := p = d \/ (d ++ u "/") `prefix_of` p.

#[global] Instance under_dec d p : Decision (under d p).
Proof. unfold under. apply _. Defined.

Definition m_exists (w : machine) (p : str) : bool :=
  bool_decide (p ∈ dirs w) || bool_decide (is_Some (files w !! p)).

Definition m_mkdtemp (prefix : str) (w : machine) : outcome str * machine :=
  let d := u "/tmp/" ++ prefix ++ str_of_int (Z.of_N (temp_serial w)) in
  (Returned d,
   {| files := files w; dirs := {[d]} ∪ dirs w; executables := executables w;
      environ := environ w; temp_serial := temp_serial w + 1; client := client w |}).

Definition m_write_binary (p : str) (bs : bytes) (w : machine) : outcome unit * machine :=
  if bool_decide (p ∈ dirs w) then (Raised (OSError (u "IsADirectoryError")), w)
  else
    (Returned tt,
     {| files := <[p := bs]> (files w); dirs := dirs w; executables := executables w;
        environ := environ w; temp_serial := temp_serial w; client := client w |}).

Definition m_makedirs (p : str) (w : machine) : outcome unit * machine :=
  if bool_decide (is_Some (files w !! p)) then (Raised (OSError (u "FileExistsError")), w)
  else
    (Returned tt,
     {| files := files w; dirs := {[p]} ∪ dirs w; executables := executables w;
        environ := environ w; temp_serial := temp_serial w; client := client w |}).

Definition m_run_child (argv : list str) (env : gmap str str) (t : N) (w : machine)
  : child_result * machine :=
  match argv with
  | [] => (NotStarted IndexError, w)
  | binary :: _ =>
      if bool_decide (binary ∈ executables w) then
        let bh := client w argv env in
        match runtime bh with
        | Some n =>
            if n <=? t then
              (Exited n (exit_code bh) (printed bh),
               {| files := written bh ∪ files w; dirs := dirs w;
                  executables := executables w; environ := environ w;
                  temp_serial := temp_serial w; client := client w |})
            else (Expired, w)
        | None => (Expired, w)
        end
      else (NotStarted (OSError (u "PermissionError")), w)
  end.

Definition m_read_text (p : str) (w : machine) : outcome str * machine :=
  match files w !! p with
  | None => (Raised (OSError (u "FileNotFoundError")), w)
  | Some bs => (obind (decode_utf8 bs) (fun s => Returned (universal_newlines s)), w)
  end.

Definition m_rmtree (d : str) (w : machine) : machine :=
  {| files := filter (fun kv => ~ under d kv.1) (files w);
     dirs := filter (fun p => ~ under d p) (dirs w);
     executables := executables w; environ := environ w;
     temp_serial := temp_serial w; client := client w |}.

#[global] Instance machine_OS : OS machine := {|
  os_access_X_OK w p := bool_decide (p ∈ executables w);
  os_path_exists := m_exists;
  os_environ := environ;
  mkdtemp := m_mkdtemp;
  write_binary := m_write_binary;
  os_makedirs := m_makedirs;
  run_child := m_run_child;
  read_text := m_read_text;
  rmtree := m_rmtree
|}.

(** The shipped example configuration, with the propagation wait left out. *)
Definition example_section : gmap str str :=
  <[u "dns_plugin_config" :=
      u "pdns_url = https://pdns.example.com" ++ [LF]
      ++ u "pdns_token = your_api_token" ++ [LF]
      ++ u "pdns_serverid = localhost" ++ [LF]
      ++ u "pdns_ttl = 60"]>
  (<[u "dns_plugin" := u "dns_pdns"]>
  (<[u "acmesh_binary_path" := u "/root/.acme.sh/acme.sh"]> ∅)).

Definition example_config : gmap str (gmap str str) :=
  <[u "acmesh" := example_section]> ∅.

Definition quiet (rc : Z) (out : bytes) (w : gmap str bytes) : behaviour :=
  {| runtime := Some 30; exit_code := rc; printed := out; written := w |}.

Definition example_machine (bh : behaviour) : machine :=
  {| files := {[u "/root/.acme.sh/acme.sh" := b "#!/usr/bin/env sh"]};
     dirs := {[u "/root/.acme.sh"]};
     executables := {[u "/root/.acme.sh/acme.sh"]};
     environ := {[u "PATH" := u "/usr/bin"]};
     temp_serial := 7;
     client := fun _ _ => bh |}.

(** The shipped example configuration with the propagation wait set. *)
Definition configured_backend : AcmeSHBackend :=
  {| acmesh_binary_path := u "/root/.acme.sh/acme.sh";
     acmesh_home_path := u "/root/.acme.sh";
     dns_plugin := u "dns_pdns";
     dns_plugin_config :=
       u "pdns_url = https://pdns.example.com" ++ [LF]
       ++ u "pdns_token = your_api_token" ++ [LF]
       ++ u "pdns_serverid = localhost" ++ [LF]
       ++ u "pdns_ttl = 60";
     dns_sleep_time := PyStr (u "120");
     debug_mode := PyBool false |}.

Definition chain_path : str := u "/root/.acme.sh/certificates/example.com.pem".

(** One signing call for [example.com] on a machine whose client behaves as
    [bh]. *)
Definition run_with (bh : behaviour)
  : outcome (option str * option str) * (machine * list event) :=
  sign configured_backend (b "CSR") (u "CN=example.com") [u "example.com"]
    (u "admin@example.com") (example_machine bh, []).

Definition issues : behaviour := quiet 0 (b "Cert success.") {[chain_path := b "CHAIN"]}.

Definition already_issued : behaviour :=
  quiet 2 (b "Skipping. Next renewal time is later.") {[chain_path := b "CHAIN"]}.

Definition dns_failure : behaviour := quiet 5 (b "DNS record not found") ∅.

Definition forgets_chain : behaviour := quiet 0 (b "Cert success.") ∅.

Definition hangs : behaviour :=
  {| runtime := None; exit_code := 0; printed := []; written := ∅ |}.

Definition already_issued_garbled : behaviour :=
  quiet 2 [xff] {[chain_path := b "CHAIN"]}.

Definition dns_failure_garbled : behaviour := quiet 5 [xff] ∅.

(** The example configuration with the propagation wait set, and with the
    debug option spelled [false]. *)
Definition configured_config : gmap str (gmap str str) :=
  <[u "acmesh" := <[u "dns_sleep_time" := u "120"]> example_section]> ∅.

Definition debug_false_config : gmap str (gmap str str) :=
  <[u "acmesh" := <[u "debug_mode" := u "false"]>
                    (<[u "dns_sleep_time" := u "120"]> example_section)]> ∅.

(** A machine with nothing on it, and one with the client but no home
    directory. *)
Definition bare_machine : machine :=
  {| files := ∅; dirs := ∅; executables := ∅; environ := ∅; temp_serial := 0;
     client := fun _ _ => issues |}.

Definition homeless_machine : machine :=
  {| files := {[u "/root/.acme.sh/acme.sh" := b "#!/usr/bin/env sh"]};
     dirs := ∅;
     executables := {[u "/root/.acme.sh/acme.sh"]};
     environ := ∅; temp_serial := 0;
     client := fun _ _ => issues |}.

(** A signing call with the given names on the given machine. *)
Definition run_on (w : machine) (sans : list str)
  : outcome (option str * option str) * (machine * list event) :=
  sign configured_backend (b "CSR") (u "CN=example.com") sans
    (u "admin@example.com") (w, []).

(** ** Vocabulary of the statements *)

(** [needle] occurs in [hay]. *)
Definition occurs_in (needle hay : str) : Prop :=
  exists before after, hay = before ++ needle ++ after.

(** A credential line written as [key=value]: the text before the first
    separator and the text after it. *)
Definition line_of (e : str * str) : str := e.1 ++ EQUALS :: e.2.

(** The separator is not in the key, and neither part holds a line
    boundary. *)
Definition well_formed (e : str * str) : Prop :=
  (EQUALS ∉ e.1) /\ Forall (fun c => islinebreak c = false) (e.1 ++ e.2).

#[global] Instance well_formed_dec e : Decision (well_formed e).
Proof. unfold well_formed. apply _. Defined.

(** ["\n".join(lines)] *)
Fixpoint join_lines (lines : list str) : str :=
  match lines with
  | [] => []
  | [l] => l
  | l :: rest => l ++ LF :: join_lines rest
  end.

Definition blank (s : str) : Prop := Forall (fun c => isspace c = true) s.

#[global] Instance blank_dec s : Decision (blank s).
Proof. unfold blank. apply _. Defined.

(** The mapping obtained by writing the entries one after the other. *)
Definition written_in_order (es : list (str * str)) : gmap str str :=
  foldl (fun d e => <[strip e.1 := strip e.2]> d) ∅ es.

(** The entry one line contributes, as the loop body computes it. *)
Definition entry_of (line : str) : str * str :=
  let '(key, _, value) := partition EQUALS (strip line) in (strip key, strip value).

(** The block with the white space in front of its first key removed. *)
Definition lstrip_first (es : list (str * str)) : list (str * str) :=
  match es with
  | [] => []
  | (k, v) :: rest => (lstrip k, v) :: rest
  end.

(** The block with the white space after its last value removed. *)
Fixpoint rstrip_last (es : list (str * str)) : list (str * str) :=
  match es with
  | [] => []
  | e :: rest =>
      match rest with
      | [] => [(e.1, rstrip e.2)]
      | _ :: _ => e :: rstrip_last rest
      end
  end.

(** The three steps before the child process, all successful. *)
Definition staged (self : AcmeSHBackend) (csr : bytes) (d : str) : list event :=
  [ Mkdtemp (u "serles-acmesh") (Returned d);
    WriteBinary (d ++ u "/csr.pem") csr (Returned tt);
    Makedirs (acmesh_home_path self ++ u "/certificates/") (Returned tt) ].

(** What [sign] does with the answer of the child process: its result,
    and the calls made after the child. *)
Inductive after_client (self : AcmeSHBackend) (san : str)
  : child_result -> outcome (option str * option str) -> list event -> Prop :=
| not_started e :
    after_client self san (NotStarted e) (Raised e) []
| timed_out :
    after_client self san Expired (Raised TimeoutExpired) []
| undecodable n rc out :
    n <= 900 -> utf8 out = None ->
    after_client self san (Exited n rc out) (Raised UnicodeDecodeError) []
| client_failed n rc out output :
    n <= 900 -> utf8 out = Some output -> rc <> 2%Z -> rc <> 0%Z ->
    after_client self san (Exited n rc out)
      (Returned (None, Some (failure_message rc output))) []
| chain_read n rc out output chain :
    n <= 900 -> utf8 out = Some output -> rc = 2%Z \/ rc = 0%Z ->
    after_client self san (Exited n rc out)
      (Returned (Some chain, None))
      [ReadText (fullchain_path self san) (Returned chain)]
| chain_not_read n rc out output e :
    n <= 900 -> utf8 out = Some output -> rc = 2%Z \/ rc = 0%Z ->
    after_client self san (Exited n rc out)
      (Raised e)
      [ReadText (fullchain_path self san) (Raised e)].

(** Every way out of [sign], with what it returns or raises and the calls
    it made to the operating system. *)
Inductive exit_path (self : AcmeSHBackend) (csr : bytes) (sans : list str)
  : outcome (option str * option str) -> list event -> Prop :=
| no_directory e :
    exit_path self csr sans (Raised e) [Mkdtemp (u "serles-acmesh") (Raised e)]
| csr_not_written d e :
    exit_path self csr sans (Raised e)
      [ Mkdtemp (u "serles-acmesh") (Returned d);
        WriteBinary (d ++ u "/csr.pem") csr (Raised e);
        Rmtree d ]
| no_certificates_directory d e :
    exit_path self csr sans (Raised e)
      [ Mkdtemp (u "serles-acmesh") (Returned d);
        WriteBinary (d ++ u "/csr.pem") csr (Returned tt);
        Makedirs (acmesh_home_path self ++ u "/certificates/") (Raised e);
        Rmtree d ]
| no_subject_alt_name d :
    sans = [] ->
    exit_path self csr sans (Raised IndexError) (staged self csr d ++ [Rmtree d])
| bad_argument d san rest :
    sans = san :: rest ->
    argv_of (command self (d ++ u "/csr.pem") (fullchain_path self san))
    = Raised TypeError ->
    exit_path self csr sans (Raised TypeError) (staged self csr d ++ [Rmtree d])
| client_ran d san rest argv env c r tail :
    sans = san :: rest ->
    argv_of (command self (d ++ u "/csr.pem") (fullchain_path self san))
    = Returned argv ->
    _parse_dns_plugin_config (dns_plugin_config self) = Returned env ->
    after_client self san c r tail ->
    exit_path self csr sans r
      (staged self csr d ++ RunChild argv env 900 c :: tail ++ [Rmtree d]).

(** [sep.join(lines)] *)
Fixpoint join_with (sep : str) (lines : list str) : str :=
  match lines with
  | [] => []
  | l :: rest =>
      match rest with
      | [] => l
      | _ :: _ => l ++ sep ++ join_with sep rest
      end
  end.

(** The line endings in use: one line-boundary character, or [\r\n]. *)
Definition line_ending (sep : str) : Prop :=
  match sep with
  | [c] => islinebreak c = true
  | [c; c'] => c = CR /\ c' = LF
  | _ => False
  end.

#[global] Instance line_ending_dec sep : Decision (line_ending sep).
Proof. destruct sep as [|c [|c' [|? ?]]]; simpl; apply _. Defined.

(** The number of child processes run in a trace. *)
Fixpoint children (tr : list event) : nat :=
  match tr with
  | [] => 0
  | RunChild _ _ _ _ :: tr' => S (children tr')
  | _ :: tr' => children tr'
  end.

(** Every character is below 128. *)
Definition ascii_only (bs : bytes) : Prop := Forall (fun x => Byte.to_N x < 128) bs.

#[global] Instance ascii_only_dec bs : Decision (ascii_only bs).
Proof. unfold ascii_only. apply _. Defined.

(** * Properties *)

(** ** Strings *)

Example splitlines_ex :
  splitlines (u "a=1" ++ [LF] ++ [CR; LF] ++ u "b" ++ [CR] ++ u "c" ++ [LF])
  = [u "a=1"; []; u "b"; u "c"].
Proof. reflexivity. Qed.

Example strip_ex : strip ([9; 32] ++ u "a b" ++ [32; LF]) = u "a b".
Proof. reflexivity. Qed.

Example partition_ex : partition EQUALS (u "k=v=w") = (u "k", u "=", u "v=w").
Proof. reflexivity. Qed.

Example partition_absent_ex : partition EQUALS (u "kv") = (u "kv", [], []).
Proof. reflexivity. Qed.

Example str_of_int_ex :
  str_of_int 0 = u "0" /\ str_of_int 255 = u "255" /\ str_of_int (-9) = u "-9".
Proof. by vm_compute. Qed.

Example utf8_ex :
  utf8 [x41; xc3; xa9; xe2; x82; xac; xf0; x9f; x94; x92] = Some [65; 233; 8364; 128274]
  /\ utf8 [xff] = None /\ utf8 [xc0; x80] = None /\ utf8 [xed; xa0; x80] = None.
Proof. by vm_compute. Qed.

Lemma lstrip_blank ws s : blank ws -> lstrip (ws ++ s) = lstrip s.
Proof.
  induction 1 as [|c ws Hc _ IH]; simpl; [done|]. by rewrite Hc.
Qed.

Lemma lstrip_app_nonspace a c t :
  isspace c = false -> lstrip (a ++ c :: t) = lstrip a ++ c :: t.
Proof.
  intros Hc. induction a as [|x a IH]; simpl.
  - by rewrite Hc.
  - destruct (isspace x); [apply IH | done].
Qed.

Lemma lstrip_idem s : lstrip (lstrip s) = lstrip s.
Proof.
  induction s as [|c s IH]; simpl; [done|].
  destruct (isspace c) eqn:Hc; [done|]. simpl. by rewrite Hc.
Qed.

Lemma lstrip_suffix s : lstrip s `suffix_of` s.
Proof.
  induction s as [|c s IH]; simpl; [done|].
  destruct (isspace c); [by apply suffix_cons_r | done].
Qed.

Lemma rstrip_cons_nonspace c s : isspace c = false -> rstrip (c :: s) = c :: rstrip s.
Proof. intros Hc. simpl. rewrite Hc. by destruct (rstrip s). Qed.

Lemma rstrip_cons_keep c s : rstrip s <> [] -> rstrip (c :: s) = c :: rstrip s.
Proof. intros Hs. simpl. by destruct (rstrip s). Qed.

Lemma rstrip_app_keep h s : rstrip s <> [] -> rstrip (h ++ s) = h ++ rstrip s.
Proof.
  intros Hs. induction h as [|x h IH]; [done|].
  rewrite <- app_comm_cons, rstrip_cons_keep, IH; [done|].
  rewrite IH. by destruct h.
Qed.

Lemma rstrip_app_nonspace h c t :
  isspace c = false -> rstrip (h ++ c :: t) = h ++ c :: rstrip t.
Proof.
  intros Hc. rewrite rstrip_app_keep; rewrite rstrip_cons_nonspace by done; done.
Qed.

Lemma rstrip_blank_nil ws : blank ws -> rstrip ws = [].
Proof. induction 1 as [|c ws Hc _ IH]; simpl; [done|]. by rewrite IH, Hc. Qed.

Lemma rstrip_blank s ws : blank ws -> rstrip (s ++ ws) = rstrip s.
Proof.
  intros Hws. induction s as [|c s IH]; simpl.
  - by apply rstrip_blank_nil.
  - by rewrite IH.
Qed.

Lemma rstrip_idem s : rstrip (rstrip s) = rstrip s.
Proof.
  induction s as [|c s IH]; simpl; [done|].
  destruct (rstrip s) as [|x r] eqn:Hr.
  - destruct (isspace c) eqn:Hc; simpl; [done | by rewrite Hc].
  - rewrite rstrip_cons_keep; rewrite IH; done.
Qed.

Lemma rstrip_prefix s : rstrip s `prefix_of` s.
Proof.
  induction s as [|c s IH]; simpl; [done|].
  destruct (rstrip s) as [|x r] eqn:Hr.
  - destruct (isspace c); [apply prefix_nil | apply prefix_cons, prefix_nil].
  - by apply prefix_cons.
Qed.

Lemma strip_lstrip s : strip (lstrip s) = strip s.
Proof. unfold strip. by rewrite lstrip_idem. Qed.

Lemma strip_rstrip s : strip (rstrip s) = strip s.
Proof.
  unfold strip. induction s as [|c s IH]; [done|].
  destruct (isspace c) eqn:Hc.
  - simpl. rewrite Hc. destruct (rstrip s) as [|x r] eqn:Hr.
    + simpl. by rewrite <- IH.
    + simpl lstrip. rewrite Hc. apply IH.
  - rewrite (rstrip_cons_nonspace c s Hc). simpl. rewrite Hc.
    rewrite !rstrip_cons_nonspace, rstrip_idem; done.
Qed.

Lemma lstrip_blank_nil ws : blank ws -> lstrip ws = [].
Proof. induction 1 as [|c ws Hc _ IH]; simpl; [done|]. by rewrite Hc. Qed.

Lemma strip_blank_ends pre s post :
  blank pre -> blank post -> strip (pre ++ s ++ post) = strip s.
Proof.
  intros Hpre Hpost. unfold strip. rewrite lstrip_blank by done.
  induction s as [|c s IH]; simpl.
  - by rewrite lstrip_blank_nil.
  - destruct (isspace c) eqn:Hc; [done|].
    by rewrite app_comm_cons, rstrip_blank.
Qed.

Lemma strip_line_of k v :
  strip (line_of (k, v)) = line_of (lstrip k, rstrip v).
Proof.
  unfold strip, line_of; simpl.
  rewrite lstrip_app_nonspace, rstrip_app_nonspace; done.
Qed.

Lemma partition_first k v :
  EQUALS ∉ k -> partition EQUALS (k ++ EQUALS :: v) = (k, [EQUALS], v).
Proof.
  induction k as [|c k IH]; intros Hk; [done|].
  apply not_elem_of_cons in Hk as [Hc Hk]. simpl.
  destruct (N.eqb_spec c EQUALS); [congruence|]. by rewrite IH.
Qed.

Lemma contains_char_line_of k v : contains_char EQUALS (line_of (k, v)) = true.
Proof.
  unfold contains_char, line_of. apply existsb_exists. exists EQUALS.
  split; [|done]. apply in_or_app. right. by left.
Qed.

Lemma splitlines_nonempty c s : splitlines (c :: s) <> [].
Proof. simpl. destruct (islinebreak c); [done|]. by destruct (splitlines s). Qed.

Lemma splitlines_line l :
  Forall (fun c => islinebreak c = false) l -> l <> [] -> splitlines l = [l].
Proof.
  induction 1 as [|c l Hc Hl IH]; intros Hne; [done|]. simpl. rewrite Hc.
  destruct l as [|c' l']; [done|]. by rewrite IH.
Qed.

Lemma splitlines_cut l rest :
  Forall (fun c => islinebreak c = false) l ->
  splitlines (l ++ LF :: rest) = l :: splitlines rest.
Proof.
  induction 1 as [|c l Hc Hl IH]; simpl.
  - by destruct rest.
  - by rewrite Hc, IH.
Qed.

(** ** The translator never raises *)

Lemma parse_line_eq d line :
  parse_line d line = Returned (<[(entry_of line).1 := (entry_of line).2]> d).
Proof.
  unfold parse_line, entry_of, expr_stmt. cbv zeta.
  destruct (partition EQUALS (strip line)) as [[key sep] value].
  destruct (_ || _); reflexivity.
Qed.

Lemma parse_lines_eq d ls :
  parse_lines d ls
  = Returned (foldl (fun d l => <[(entry_of l).1 := (entry_of l).2]> d) d ls).
Proof.
  revert d. induction ls as [|l ls IH]; intros d; simpl; [done|].
  rewrite parse_line_eq. simpl. apply IH.
Qed.

Lemma entry_of_line_of k v :
  EQUALS ∉ k -> entry_of (line_of (k, v)) = (strip k, strip v).
Proof.
  intros Hk. unfold entry_of. rewrite strip_line_of. unfold line_of; simpl.
  rewrite partition_first.
  - by rewrite strip_lstrip, strip_rstrip.
  - intros Hin. apply Hk. destruct (lstrip_suffix k) as [ws ->].
    apply elem_of_app. by right.
Qed.

Lemma parse_lines_well_formed d es :
  Forall well_formed es ->
  parse_lines d (line_of <$> es)
  = Returned (foldl (fun d e => <[strip e.1 := strip e.2]> d) d es).
Proof.
  intros Hes. revert d.
  induction Hes as [|[k v] es [Hk _] _ IH]; intros d; simpl; [done|].
  rewrite parse_line_eq, entry_of_line_of by done. simpl. apply IH.
Qed.

(** ** A block of well-formed lines *)

Lemma join_lstrip es :
  lstrip (join_lines (line_of <$> es)) = join_lines (line_of <$> lstrip_first es).
Proof.
  destruct es as [|[k v] rest]; [done|].
  destruct rest as [|e rest]; simpl; unfold line_of; simpl.
  - by rewrite lstrip_app_nonspace.
  - by rewrite <- !app_assoc, <- !app_comm_cons, lstrip_app_nonspace.
Qed.

Lemma join_lines_line_of_nonblank es :
  es <> [] -> rstrip (join_lines (line_of <$> es)) <> [].
Proof.
  destruct es as [|[k v] rest]; [done|]. intros _.
  assert (exists t, join_lines (line_of <$> (k, v) :: rest) = k ++ EQUALS :: t) as [t ->].
  { destruct rest; simpl; unfold line_of; simpl; [by eexists|].
    rewrite <- app_assoc, <- app_comm_cons. by eexists. }
  rewrite rstrip_app_nonspace by done. by destruct k.
Qed.

Lemma join_lines_cons l ls :
  ls <> [] -> join_lines (l :: ls) = l ++ LF :: join_lines ls.
Proof. by destruct ls. Qed.

Lemma rstrip_last_nonempty es : es <> [] -> rstrip_last es <> [].
Proof. destruct es as [|e [|e' rest]]; done. Qed.

Lemma join_rstrip es :
  rstrip (join_lines (line_of <$> es)) = join_lines (line_of <$> rstrip_last es).
Proof.
  induction es as [|[k v] rest IH]; [done|].
  destruct rest as [|e rest].
  - simpl. unfold line_of; simpl. by rewrite rstrip_app_nonspace.
  - change (rstrip_last ((k, v) :: e :: rest)) with ((k, v) :: rstrip_last (e :: rest)).
    rewrite (fmap_cons line_of (k, v) (e :: rest)).
    rewrite (fmap_cons line_of (k, v) (rstrip_last (e :: rest))).
    rewrite !join_lines_cons.
    + rewrite <- IH.
      rewrite !(cons_middle LF (line_of (k, v))), !app_assoc.
      by rewrite rstrip_app_keep by (by apply join_lines_line_of_nonblank).
    + intros Hnil. apply fmap_nil_inv in Hnil.
      by apply (rstrip_last_nonempty (e :: rest)).
    + done.
Qed.

Lemma strip_join es :
  strip (join_lines (line_of <$> es))
  = join_lines (line_of <$> rstrip_last (lstrip_first es)).
Proof. unfold strip. by rewrite join_lstrip, join_rstrip. Qed.

Lemma well_formed_lstrip k v : well_formed (k, v) -> well_formed (lstrip k, v).
Proof.
  intros [Hk Hlb]. destruct (lstrip_suffix k) as [ws Hws]. simpl in *.
  rewrite Hws in Hk, Hlb. split; simpl.
  - intros Hin. apply Hk, elem_of_app. by right.
  - rewrite <- app_assoc in Hlb. by apply Forall_app in Hlb as [_ ?].
Qed.

Lemma well_formed_rstrip k v : well_formed (k, v) -> well_formed (k, rstrip v).
Proof.
  intros [Hk Hlb]. destruct (rstrip_prefix v) as [ws Hws]. simpl in *.
  rewrite Hws in Hlb. split; simpl; [done|].
  rewrite app_assoc in Hlb. by apply Forall_app in Hlb as [? _].
Qed.

Lemma well_formed_lstrip_first es :
  Forall well_formed es -> Forall well_formed (lstrip_first es).
Proof.
  destruct 1 as [|[k v] rest Hkv Hrest]; simpl; [done|].
  constructor; [by apply well_formed_lstrip | done].
Qed.

Lemma well_formed_rstrip_last es :
  Forall well_formed es -> Forall well_formed (rstrip_last es).
Proof.
  induction 1 as [|[k v] rest Hkv Hrest IH]; [done|].
  destruct rest as [|e rest]; simpl.
  - constructor; [by apply well_formed_rstrip | done].
  - by constructor.
Qed.

(** Stripping the two ends of the block changes no stripped key or value. *)
Lemma written_lstrip_first (d : gmap str str) es :
  foldl (fun d e => <[strip e.1 := strip e.2]> d) d (lstrip_first es)
  = foldl (fun d e => <[strip e.1 := strip e.2]> d) d es.
Proof. destruct es as [|[k v] rest]; simpl; [done|]. by rewrite strip_lstrip. Qed.

Lemma written_rstrip_last (d : gmap str str) es :
  foldl (fun d e => <[strip e.1 := strip e.2]> d) d (rstrip_last es)
  = foldl (fun d e => <[strip e.1 := strip e.2]> d) d es.
Proof.
  revert d. induction es as [|[k v] rest IH]; intros d; [done|].
  destruct rest as [|e rest].
  - simpl. by rewrite strip_rstrip.
  - change (rstrip_last ((k, v) :: e :: rest)) with ((k, v) :: rstrip_last (e :: rest)).
    simpl foldl at 1. rewrite IH. done.
Qed.

Lemma line_of_no_linebreak e :
  well_formed e -> Forall (fun c => islinebreak c = false) (line_of e).
Proof.
  intros [_ Hlb]. unfold line_of. apply Forall_app in Hlb as [H1 H2].
  apply Forall_app. split; [done|]. by constructor.
Qed.

Lemma splitlines_join es :
  Forall well_formed es ->
  splitlines (join_lines (line_of <$> es)) = line_of <$> es.
Proof.
  induction 1 as [|e rest He Hrest IH]; [done|].
  destruct rest as [|e' rest].
  - simpl. apply splitlines_line; [by apply line_of_no_linebreak|].
    unfold line_of. by destruct e.1.
  - change (splitlines (line_of e ++ LF :: join_lines (line_of <$> e' :: rest))
            = line_of e :: (line_of <$> e' :: rest)).
    rewrite splitlines_cut by (by apply line_of_no_linebreak). by rewrite IH.
Qed.

(** The translation of a block of well-formed lines, white space and blank
    lines around it allowed. *)
Lemma parse_block pre es post :
  blank pre -> blank post -> Forall well_formed es ->
  _parse_dns_plugin_config (pre ++ join_lines (line_of <$> es) ++ post)
  = Returned (written_in_order es).
Proof.
  intros Hpre Hpost Hes. unfold _parse_dns_plugin_config, written_in_order.
  rewrite strip_blank_ends, strip_join by done.
  rewrite splitlines_join
    by (by apply well_formed_rstrip_last, well_formed_lstrip_first).
  rewrite parse_lines_well_formed
    by (by apply well_formed_rstrip_last, well_formed_lstrip_first).
  by rewrite written_rstrip_last, written_lstrip_first.
Qed.

(** ** Writing entries in order: the last one with a key wins *)

Lemma written_in_order_snoc es e :
  written_in_order (es ++ [e]) = <[strip e.1 := strip e.2]> (written_in_order es).
Proof. unfold written_in_order. by rewrite foldl_app. Qed.

Lemma written_in_order_dom es :
  dom (written_in_order es) = list_to_set ((fun e => strip e.1) <$> es).
Proof.
  induction es as [|e es IH] using rev_ind; [set_solver|].
  rewrite written_in_order_snoc, dom_insert_L, IH, fmap_app, list_to_set_app_L.
  set_solver.
Qed.

Lemma written_in_order_keys es key :
  is_Some (written_in_order es !! key) <-> exists e, e ∈ es /\ strip e.1 = key.
Proof.
  rewrite <- elem_of_dom, written_in_order_dom, elem_of_list_to_set, list_elem_of_fmap.
  naive_solver.
Qed.

Lemma written_in_order_size es :
  size (written_in_order es) = length (remove_dups ((fun e => strip e.1) <$> es)).
Proof.
  rewrite <- size_dom, written_in_order_dom.
  rewrite <- (size_list_to_set (C := gset str) (remove_dups _))
    by apply NoDup_remove_dups.
  f_equal. apply set_eq. intros key.
  by rewrite !elem_of_list_to_set, elem_of_remove_dups.
Qed.

Lemma written_in_order_last es i e :
  es !! i = Some e ->
  (forall j e', (i < j)%nat -> es !! j = Some e' -> strip e'.1 <> strip e.1) ->
  written_in_order es !! strip e.1 = Some (strip e.2).
Proof.
  revert i. induction es as [|x es IH] using rev_ind; intros i Hi Hlast; [done|].
  rewrite written_in_order_snoc.
  destruct (decide (i = length es)) as [->|Hne].
  - rewrite list_lookup_middle in Hi by done. injection Hi as ->.
    apply lookup_insert_eq.
  - assert (i < length es)%nat as Hlt.
    { apply lookup_lt_Some in Hi. rewrite length_app in Hi. simpl in Hi. lia. }
    rewrite lookup_app_l in Hi by done.
    rewrite lookup_insert_ne.
    + apply (IH i Hi). intros j e' Hj He'. apply (Hlast j e' Hj).
      by rewrite lookup_app_l by (by eapply lookup_lt_Some).
    + apply (Hlast (length es) x Hlt). by rewrite list_lookup_middle.
Qed.

(** ** The credential-block translator: claims C1, C4, C5 *)

(** C1. The claim: a block holding a non-blank line without ['='] makes the
    translation fail with an error naming the line. The code builds the
    [RuntimeError] and drops it, so the translation never fails: for every
    block it returns a mapping, and for the block
    [pdns_url = https://pdns.example.com / pdns_token] it returns a mapping
    in which the line without separator appears as the key [pdns_token]
    with the empty value. *)
Theorem malformed_line_is_not_rejected :
  (forall config_str, exists env, _parse_dns_plugin_config config_str = Returned env)
  /\ _parse_dns_plugin_config
       (u "pdns_url = https://pdns.example.com" ++ [LF] ++ u "pdns_token")
     = Returned (<[u "pdns_token" := []]>
                   (<[u "pdns_url" := u "https://pdns.example.com"]> ∅)).
Proof.
  split.
  - intros config_str. unfold _parse_dns_plugin_config.
    rewrite parse_lines_eq. by eexists.
  - vm_compute. reflexivity.
Qed.

(** C4, as stated, fails when a blank line stands between two entries: the
    keys of the result are then not the trimmed keys of the lines [a=1] and
    [b=2] only. *)
Lemma blank_line_between_entries_breaks_key_set :
  ~ (exists env,
       _parse_dns_plugin_config (u "a=1" ++ [LF; LF] ++ u "b=2") = Returned env
       /\ forall key,
            is_Some (env !! key)
            <-> exists e, e ∈ [(u "a", u "1"); (u "b", u "2")] /\ strip e.1 = key).
Proof.
  intros (env & Henv & Hkeys).
  assert (env !! [] = Some []) as Hempty.
  { revert Henv. vm_compute. by intros [= <-]. }
  destruct (proj1 (Hkeys [])) as (e & He & Hkey); [by eexists|].
  repeat (apply elem_of_cons in He as [->|He]; [by vm_compute in Hkey|]).
  by apply elem_of_nil in He.
Qed.

(** C4, amended. A block made of well-formed [key=value] lines separated by
    line feeds, with any white space and blank lines before the first and
    after the last of them, is translated to a mapping that holds exactly
    the trimmed keys of the lines, one entry for each distinct trimmed key,
    and under each key the trimmed value of the last line with that key. *)
Theorem well_formed_block_translation (pre post : str) (es : list (str * str)) :
  blank pre -> blank post -> Forall well_formed es ->
  exists env,
    _parse_dns_plugin_config (pre ++ join_lines (line_of <$> es) ++ post)
    = Returned env
    /\ (forall key, is_Some (env !! key) <-> exists e, e ∈ es /\ strip e.1 = key)
    /\ size env = length (remove_dups ((fun e => strip e.1) <$> es))
    /\ (forall i e,
          es !! i = Some e ->
          (forall j e', (i < j)%nat -> es !! j = Some e' -> strip e'.1 <> strip e.1) ->
          env !! strip e.1 = Some (strip e.2)).
Proof.
  intros Hpre Hpost Hes. exists (written_in_order es).
  split; [by apply parse_block|].
  split; [apply written_in_order_keys|].
  split; [apply written_in_order_size|].
  apply written_in_order_last.
Qed.

Lemma well_formed_block_translation_witness :
  exists env,
    _parse_dns_plugin_config
      ([LF; 32] ++ join_lines (line_of <$> [(u "pdns_ttl ", u " 60");
                                            (u " pdns_url", u " https://a=b ");
                                            (u "pdns_ttl", u "3600 ")])
       ++ [32; LF; LF])
    = Returned env
    /\ (forall key,
          is_Some (env !! key)
          <-> exists e, e ∈ [(u "pdns_ttl ", u " 60");
                             (u " pdns_url", u " https://a=b ");
                             (u "pdns_ttl", u "3600 ")] /\ strip e.1 = key)
    /\ size env = length (remove_dups ((fun e => strip e.1)
                                         <$> [(u "pdns_ttl ", u " 60");
                                              (u " pdns_url", u " https://a=b ");
                                              (u "pdns_ttl", u "3600 ")]))
    /\ (forall i e,
          [(u "pdns_ttl ", u " 60"); (u " pdns_url", u " https://a=b ");
           (u "pdns_ttl", u "3600 ")] !! i = Some e ->
          (forall j e', (i < j)%nat ->
             [(u "pdns_ttl ", u " 60"); (u " pdns_url", u " https://a=b ");
              (u "pdns_ttl", u "3600 ")] !! j = Some e' ->
             strip e'.1 <> strip e.1) ->
          env !! strip e.1 = Some (strip e.2)).
Proof.
  apply (well_formed_block_translation [LF; 32] [32; LF; LF]
           [(u "pdns_ttl ", u " 60"); (u " pdns_url", u " https://a=b ");
            (u "pdns_ttl", u "3600 ")]).
  - apply (bool_decide_unpack _). vm_compute. exact I.
  - apply (bool_decide_unpack _). vm_compute. exact I.
  - apply (bool_decide_unpack _). vm_compute. exact I.
Defined.

(** C5. The claim: a blank line adds no entry. In the code a blank line
    inside the block falls through to [partition] and the assignment like
    any other line, so it adds the entry with the empty key and the empty
    value. *)
Theorem blank_line_adds_empty_entry :
  _parse_dns_plugin_config (u "a=1" ++ [LF; LF] ++ u "b=2")
  = Returned (<[u "b" := u "2"]> (<[[] := []]> (<[u "a" := u "1"]> ∅))).
Proof. vm_compute. reflexivity. Qed.

(** ** The translator: further properties *)

Lemma strip_idem s : strip (strip s) = strip s.
Proof.
  transitivity (strip (rstrip (lstrip s))); [done|].
  by rewrite strip_rstrip, strip_lstrip.
Qed.

Lemma elem_of_strip c s : c ∈ strip s -> c ∈ s.
Proof.
  unfold strip. intros Hc.
  destruct (rstrip_prefix (lstrip s)) as [post Hpost].
  destruct (lstrip_suffix s) as [pre Hpre].
  rewrite Hpre, Hpost. apply elem_of_app. right. apply elem_of_app. by left.
Qed.

Lemma partition_parts sep s :
  s = (partition sep s).1.1 ++ (partition sep s).1.2 ++ (partition sep s).2
  /\ sep ∉ (partition sep s).1.1.
Proof.
  induction s as [|c s [IH1 IH2]]; simpl; [split; [done | apply not_elem_of_nil]|].
  destruct (N.eqb_spec c sep) as [->|Hne]; simpl; [split; [done | apply not_elem_of_nil]|].
  destruct (partition sep s) as [[h m] t]. simpl in *. split; [by f_equal|].
  apply not_elem_of_cons. split; [congruence | done].
Qed.

Lemma splitlines_no_linebreak s :
  Forall (Forall (fun c => islinebreak c = false)) (splitlines s).
Proof.
  assert (forall n s, (length s <= n)%nat ->
            Forall (Forall (fun c => islinebreak c = false)) (splitlines s)) as Hn.
  { clear s. induction n as [|n IH]; intros [|c s] Hlen; simpl in *; try done; [lia|].
    destruct (islinebreak c) eqn:Hc.
    - constructor; [done|]. destruct s as [|c' s']; [done|].
      destruct ((c =? CR) && (c' =? LF)); apply IH; simpl in *; lia.
    - specialize (IH s ltac:(lia)).
      destruct (splitlines s) as [|l ls]; [by repeat constructor|].
      apply Forall_cons in IH as [Hl Hls]. by repeat constructor. }
  by apply (Hn (length s)).
Qed.

Lemma entry_of_shape line :
  Forall (fun c => islinebreak c = false) line ->
  strip (entry_of line).1 = (entry_of line).1
  /\ strip (entry_of line).2 = (entry_of line).2
  /\ (EQUALS ∉ (entry_of line).1)
  /\ Forall (fun c => islinebreak c = false) (entry_of line).1
  /\ Forall (fun c => islinebreak c = false) (entry_of line).2.
Proof.
  intros Hline. unfold entry_of.
  destruct (partition_parts EQUALS (strip line)) as [Hparts Hsep].
  destruct (partition EQUALS (strip line)) as [[key sep] value]. simpl in *.
  assert (forall c, c ∈ strip line -> islinebreak c = false) as Hstrip.
  { intros c Hc. apply elem_of_strip in Hc.
    by apply (proj1 (Forall_forall _ _) Hline). }
  repeat split.
  - apply strip_idem.
  - apply strip_idem.
  - intros Hin. by apply Hsep, elem_of_strip.
  - apply Forall_forall. intros c Hc. apply Hstrip. rewrite Hparts.
    apply elem_of_app. left. by apply elem_of_strip.
  - apply Forall_forall. intros c Hc. apply Hstrip. rewrite Hparts.
    apply elem_of_app. right. apply elem_of_app. right. by apply elem_of_strip.
Qed.

Lemma written_from_lines (d : gmap str str) ls key value :
  foldl (fun d l => <[(entry_of l).1 := (entry_of l).2]> d) d ls !! key = Some value ->
  d !! key = Some value \/ exists l, l ∈ ls /\ entry_of l = (key, value).
Proof.
  revert d. induction ls as [|l ls IH]; intros d; simpl; [by left|].
  intros Hlook. apply IH in Hlook as [Hd|(l' & Hl' & He)].
  - destruct (decide ((entry_of l).1 = key)) as [Hk|Hk].
    + rewrite <- Hk, lookup_insert_eq in Hd. right. exists l.
      split; [apply list_elem_of_here|]. destruct (entry_of l); simpl in *. congruence.
    + rewrite lookup_insert_ne in Hd by done. by left.
  - right. exists l'. split; [by apply list_elem_of_further | done].
Qed.

(** X1. A block that is empty or holds only white space and blank lines is
    translated to the empty mapping. *)
Theorem blank_block_translates_to_nothing config_str :
  blank config_str -> _parse_dns_plugin_config config_str = Returned ∅.
Proof.
  intros Hblank. unfold _parse_dns_plugin_config, strip.
  by rewrite lstrip_blank_nil.
Qed.

(** X2. White space and blank lines before and after a block do not change
    its translation. *)
Theorem surrounding_blank_is_ignored pre config_str post :
  blank pre -> blank post ->
  _parse_dns_plugin_config (pre ++ config_str ++ post)
  = _parse_dns_plugin_config config_str.
Proof.
  intros Hpre Hpost. unfold _parse_dns_plugin_config.
  by rewrite strip_blank_ends.
Qed.

(** X3. In every translated mapping each key and each value is trimmed and
    free of line boundaries, no key holds the separator ['='], and each
    entry is the one computed from some line of the block. *)
Theorem translated_entries_are_trimmed config_str env key value :
  _parse_dns_plugin_config config_str = Returned env ->
  env !! key = Some value ->
  strip key = key /\ strip value = value
  /\ (EQUALS ∉ key)
  /\ Forall (fun c => islinebreak c = false) key
  /\ Forall (fun c => islinebreak c = false) value
  /\ exists line, line ∈ splitlines (strip config_str)
                  /\ key = strip (partition EQUALS (strip line)).1.1
                  /\ value = strip (partition EQUALS (strip line)).2.
Proof.
  unfold _parse_dns_plugin_config. rewrite parse_lines_eq. intros [= <-] Hlook.
  apply written_from_lines in Hlook as [Hempty|(line & Hline & Hentry)];
    [by rewrite lookup_empty in Hempty|].
  assert (Forall (fun c => islinebreak c = false) line) as Hnolb.
  { by apply (proj1 (Forall_forall _ _) (splitlines_no_linebreak (strip config_str))). }
  destruct (entry_of_shape line Hnolb) as (H1 & H2 & H3 & H4 & H5).
  rewrite Hentry in *. simpl in *. repeat split; try done.
  exists line. split; [done|].
  unfold entry_of in Hentry.
  destruct (partition EQUALS (strip line)) as [[k0 m0] v0]. simpl.
  injection Hentry as <- <-. done.
Qed.

Lemma join_with_cons sep l ls :
  ls <> [] -> join_with sep (l :: ls) = l ++ sep ++ join_with sep ls.
Proof. by destruct ls. Qed.

Lemma join_with_lstrip sep es :
  lstrip (join_with sep (line_of <$> es))
  = join_with sep (line_of <$> lstrip_first es).
Proof.
  destruct es as [|[k v] rest]; [done|].
  destruct rest as [|e rest]; simpl; unfold line_of; simpl.
  - by rewrite lstrip_app_nonspace.
  - by rewrite <- !app_assoc, <- !app_comm_cons, lstrip_app_nonspace.
Qed.

Lemma join_with_nonblank sep es :
  es <> [] -> rstrip (join_with sep (line_of <$> es)) <> [].
Proof.
  destruct es as [|[k v] rest]; [done|]. intros _.
  assert (exists t, join_with sep (line_of <$> (k, v) :: rest) = k ++ EQUALS :: t)
    as [t ->].
  { destruct rest; simpl; unfold line_of; simpl; [by eexists|].
    rewrite <- app_assoc, <- app_comm_cons. by eexists. }
  rewrite rstrip_app_nonspace by done. by destruct k.
Qed.

Lemma join_with_rstrip sep es :
  rstrip (join_with sep (line_of <$> es))
  = join_with sep (line_of <$> rstrip_last es).
Proof.
  induction es as [|[k v] rest IH]; [done|].
  destruct rest as [|e rest].
  - simpl. unfold line_of; simpl. by rewrite rstrip_app_nonspace.
  - change (rstrip_last ((k, v) :: e :: rest)) with ((k, v) :: rstrip_last (e :: rest)).
    rewrite (fmap_cons line_of (k, v) (e :: rest)).
    rewrite (fmap_cons line_of (k, v) (rstrip_last (e :: rest))).
    rewrite !join_with_cons.
    + rewrite <- IH, !app_assoc.
      by rewrite rstrip_app_keep by (by apply join_with_nonblank).
    + intros Hnil. apply fmap_nil_inv in Hnil.
      by apply (rstrip_last_nonempty (e :: rest)).
    + done.
Qed.

Lemma splitlines_cut_ending sep l c rest :
  line_ending sep ->
  Forall (fun c => islinebreak c = false) l ->
  islinebreak c = false ->
  splitlines (l ++ sep ++ c :: rest) = l :: splitlines (c :: rest).
Proof.
  intros Hsep Hl Hc.
  assert (splitlines (sep ++ c :: rest) = [] :: splitlines (c :: rest)) as Hcut.
  { destruct sep as [|x [|y [|? ?]]]; simpl in Hsep; try done.
    - cbn [app splitlines]. rewrite Hsep.
      destruct (N.eqb_spec c LF) as [->|_]; [by vm_compute in Hc|].
      by rewrite andb_false_r.
    - by destruct Hsep as [-> ->]. }
  induction Hl as [|x l Hx Hl IH]; [done|].
  cbn [app splitlines]. fold (app (A := N)). by rewrite Hx, IH.
Qed.

Lemma line_of_head e :
  well_formed e -> exists c r, line_of e = c :: r /\ islinebreak c = false.
Proof.
  intros [_ Hlb]. destruct e as [[|c k] v]; unfold line_of; simpl in *.
  - by exists EQUALS, v.
  - exists c, (k ++ EQUALS :: v). split; [done|]. by apply Forall_cons in Hlb as [? _].
Qed.

Lemma splitlines_join_with sep es :
  line_ending sep -> Forall well_formed es ->
  splitlines (join_with sep (line_of <$> es)) = line_of <$> es.
Proof.
  intros Hsep. induction 1 as [|e rest He Hrest IH]; [done|].
  destruct rest as [|e' rest].
  - simpl. apply splitlines_line; [by apply line_of_no_linebreak|].
    unfold line_of. by destruct e.1.
  - rewrite (fmap_cons line_of e (e' :: rest)), join_with_cons by done.
    assert (exists c r, join_with sep (line_of <$> e' :: rest) = c :: r
                        /\ islinebreak c = false) as (c & r & Hjoin & Hc).
    { apply Forall_cons in Hrest as [He' _].
      destruct (line_of_head e' He') as (c & r & Hline & Hc).
      destruct rest; simpl; rewrite Hline; by eexists _, _. }
    rewrite Hjoin, splitlines_cut_ending by (done || by apply line_of_no_linebreak).
    by rewrite <- Hjoin, IH.
Qed.

(** X4. The line ending does not matter: a block of well-formed lines
    separated by [\r\n], by [\r] or by any other line boundary is translated
    like the same lines separated by [\n]. *)
Theorem line_ending_does_not_matter sep pre post (es : list (str * str)) :
  line_ending sep -> blank pre -> blank post -> Forall well_formed es ->
  _parse_dns_plugin_config (pre ++ join_with sep (line_of <$> es) ++ post)
  = _parse_dns_plugin_config (pre ++ join_lines (line_of <$> es) ++ post).
Proof.
  intros Hsep Hpre Hpost Hes. rewrite (parse_block pre es post) by done.
  unfold _parse_dns_plugin_config, written_in_order.
  rewrite strip_blank_ends by done. unfold strip.
  rewrite join_with_lstrip, join_with_rstrip.
  rewrite splitlines_join_with
    by (done || by apply well_formed_rstrip_last, well_formed_lstrip_first).
  rewrite parse_lines_well_formed
    by (by apply well_formed_rstrip_last, well_formed_lstrip_first).
  by rewrite written_rstrip_last, written_lstrip_first.
Qed.

(** ** The ways out of [sign] *)

Section Runs.
Context {W : Type} `{!OS W, !LawfulOS W}.

Lemma argv_of_raises cmd e : argv_of cmd = Raised e -> e = TypeError.
Proof.
  induction cmd as [|[s|z|v] cmd IH]; simpl; try congruence.
  destruct (argv_of cmd); simpl; [congruence|]. intros [= <-]. by apply IH.
Qed.

Lemma parse_returns config_str :
  _parse_dns_plugin_config config_str
  = Returned (foldl (fun d l => <[(entry_of l).1 := (entry_of l).2]> d) ∅
                (splitlines (strip config_str))).
Proof. unfold _parse_dns_plugin_config. apply parse_lines_eq. Qed.

(** The temporary directory recorded in an explicit trace is gone once
    [rmtree] has run. *)
Ltac directory_gone :=
  let d0 := fresh "d0" in
  let Hd0 := fresh "Hd0" in
  intros d0 Hd0; simpl in Hd0;
  repeat (apply elem_of_cons in Hd0 as [Hd0|Hd0];
          [try discriminate Hd0; injection Hd0 as <-; apply rmtree_gone|]);
  by apply elem_of_nil in Hd0.

Ltac leave_by path :=
  intros [= <- <- <-]; split; [simpl; path | directory_gone].

(** Symbolic execution of [sign]: each call leaves by one of the paths
    above, and the temporary directory it made is gone afterwards. *)
Lemma sign_exit_path self csr subjectDN sans email w r w' tr :
  sign self csr subjectDN sans email (w, []) = (r, (w', tr)) ->
  exit_path self csr sans r tr
  /\ forall d, Mkdtemp (u "serles-acmesh") (Returned d) ∈ tr ->
               os_path_exists w' d = false.
Proof.
  unfold sign, with_TemporaryDirectory, sys. simpl.
  destruct (mkdtemp _ w) as [[d|e] w1] eqn:Hmk; simpl.
  2: { intros [= <- <- <-]. split; [constructor|].
       intros d Hd. apply list_elem_of_singleton in Hd. discriminate. }
  unfold bind at 1. simpl.
  destruct (write_binary _ csr w1) as [[[]|e] w2] eqn:Hwr; simpl.
  2: { leave_by ltac:(apply csr_not_written). }
  unfold bind at 1. simpl.
  destruct (os_makedirs _ w2) as [[[]|e] w3] eqn:Hmd; simpl.
  2: { leave_by ltac:(apply no_certificates_directory). }
  unfold bind at 1, pure at 1.
  destruct sans as [|san rest]; simpl.
  { leave_by ltac:(by apply (no_subject_alt_name self csr [] d)). }
  unfold bind at 1, pure at 1. rewrite parse_returns.
  unfold bind at 1, subprocess_run, bind at 1, pure at 1.
  destruct (argv_of _) as [argv|e] eqn:Hargv.
  2: { apply argv_of_raises in Hargv as Heq. subst e.
       leave_by ltac:(by eapply (bad_argument self csr _ d)). }
  unfold sys. simpl.
  destruct (run_child argv _ 900 w3) as [[n rc out| |e] w4] eqn:Hrun; simpl.
  3: { leave_by ltac:(apply (client_ran self csr _ d san rest argv _ _ _ []);
                      [done | done | apply parse_returns | constructor]). }
  2: { leave_by ltac:(apply (client_ran self csr _ d san rest argv _ _ _ []);
                      [done | done | apply parse_returns | constructor]). }
  apply run_child_deadline in Hrun as Hn.
  unfold bind at 1, pure at 1, decode_utf8.
  destruct (utf8 out) as [output|] eqn:Hout.
  2: { leave_by ltac:(apply (client_ran self csr _ d san rest argv _ _ _ []);
                      [done | done | apply parse_returns | by constructor]). }
  assert (forall s0 : W * list event,
            bind (sys (read_text (fullchain_path self san))
                    (ReadText (fullchain_path self san)))
                 (fun chain => ret (Some chain, (None : option str))) s0
            = let '(rd, w5) := read_text (fullchain_path self san) s0.1 in
              (match rd with
               | Returned chain => Returned (Some chain, (None : option str))
               | Raised e => Raised e
               end,
               (w5, s0.2 ++ [ReadText (fullchain_path self san) rd]))) as Hread.
  { intros [w0 tr0]. unfold bind, sys, ret. simpl.
    by destruct (read_text _ w0) as [[chain|e] w5]. }
  unfold sys in Hread.
  destruct (Z.eqb_spec rc 2) as [Hrc2|Hrc2];
    [|destruct (Z.eqb_spec rc 0) as [Hrc0|Hrc0]]; simpl.
  3: { unfold ret.
       leave_by ltac:(apply (client_ran self csr _ d san rest argv _ _ _ []);
                      [done | done | apply parse_returns | by constructor]). }
  all: rewrite Hread; simpl;
    destruct (read_text _ w4) as [[chain|e] w5] eqn:Hrd; simpl;
    leave_by ltac:(apply (client_ran self csr _ d san rest argv _ _ _ [_]);
                   [done | done | apply parse_returns
                   | econstructor; eauto]).
Qed.

(** Case analysis on the way out of a call of [sign]. *)
Ltac by_exit_path Hrun :=
  let Hpath := fresh "Hpath" in
  let Hgone := fresh "Hgone" in
  let Hafter := fresh "Hafter" in
  apply sign_exit_path in Hrun as [Hpath Hgone];
  destruct Hpath as [ | | | | | ? ? ? ? ? ? ? ? ? ? ? Hafter];
  [ | | | | | destruct Hafter]; unfold staged in *; simpl in *.

(** An event found in an explicit trace is one of its elements. *)
Ltac which_event Hin :=
  repeat (apply elem_of_cons in Hin as [Hin|Hin];
          [try discriminate Hin|]);
  try (by apply elem_of_nil in Hin).

Lemma failure_message_holds rc output :
  occurs_in (str_of_int rc) (failure_message rc output)
  /\ occurs_in output (failure_message rc output).
Proof.
  split.
  - exists (u "acme.sh exited with error "), (u " and output:" ++ [LF] ++ output).
    reflexivity.
  - exists (u "acme.sh exited with error " ++ str_of_int rc
            ++ u " and output:" ++ [LF]), [].
    unfold failure_message. rewrite app_nil_r, <- !app_assoc. reflexivity.
Qed.

(** The event is in the explicit trace. *)
Ltac in_trace :=
  repeat first [apply list_elem_of_here | apply list_elem_of_further].

(** ** The child process: claims C2, C6, C7, C10 *)

(** C2, amended. Whenever [sign] starts the child process, the environment
    it hands over is the mapping translated from the credential block and
    nothing else: the environment of the running process is not consulted,
    and the deadline is 900 seconds. *)
Theorem child_environment_is_translated_block
    self csr subjectDN sans email w r w' tr argv env t c :
  sign self csr subjectDN sans email (w, []) = (r, (w', tr)) ->
  RunChild argv env t c ∈ tr ->
  _parse_dns_plugin_config (dns_plugin_config self) = Returned env.
Proof.
  intros Hrun Hin. by_exit_path Hrun; which_event Hin; congruence.
Qed.

(** C6, amended. When the client exits with code 2 and what it printed
    decodes as UTF-8, [sign] does not treat the exit code as an error: it
    reads the file [<home>/certificates/<subjectAltNames[0]>.pem] and
    returns what was read with no error (when the file cannot be read, it
    raises the exception of the read). *)
Theorem already_issued_reads_chain
    self csr subjectDN sans email w r w' tr argv env t n out :
  sign self csr subjectDN sans email (w, []) = (r, (w', tr)) ->
  RunChild argv env t (Exited n 2 out) ∈ tr ->
  is_Some (utf8 out) ->
  exists san rd,
    head sans = Some san
    /\ ReadText (fullchain_path self san) rd ∈ tr
    /\ r = match rd with
           | Returned chain => Returned (Some chain, None)
           | Raised e => Raised e
           end.
Proof.
  intros Hrun Hin [output Hout].
  by_exit_path Hrun; which_event Hin; simplify_eq.
  - exists san, (Returned chain). split; [done|]. split; [|done].
    in_trace.
  - exists san, (Raised e). split; [done|]. split; [|done].
    in_trace.
Qed.

(** C7, amended. When the client exits with a code other than 0 and 2 and
    what it printed decodes as UTF-8, [sign] returns no certificate and a
    message in which the exit code and the whole decoded output occur; for
    the exit code 5 and the output [DNS record not found] the message
    holds both [5] and [DNS record not found]. *)
Theorem client_failure_is_reported
    self csr subjectDN sans email w r w' tr argv env t n rc out output :
  sign self csr subjectDN sans email (w, []) = (r, (w', tr)) ->
  RunChild argv env t (Exited n rc out) ∈ tr ->
  rc <> 0%Z -> rc <> 2%Z ->
  utf8 out = Some output ->
  exists msg,
    r = Returned (None, Some msg)
    /\ occurs_in (str_of_int rc) msg
    /\ occurs_in output msg
    /\ (rc = 5%Z -> out = b "DNS record not found" ->
        occurs_in (u "5") msg /\ occurs_in (u "DNS record not found") msg).
Proof.
  intros Hrun Hin Hrc0 Hrc2 Hout.
  by_exit_path Hrun; which_event Hin; simplify_eq;
    try match goal with Hok : _ = 2%Z \/ _ = 0%Z |- _ => by destruct Hok end.
  match goal with
  | Hdec : utf8 ?printed = Some ?text |- context [failure_message ?code ?text] =>
      exists (failure_message code text);
      destruct (failure_message_holds code text) as [Hcode Houtput];
      split; [done|]; split; [exact Hcode|]; split; [exact Houtput|];
      intros Hfive Hprinted; split;
      [ subst code; exact Hcode
      | subst printed; vm_compute in Hdec;
        injection Hdec as <-; exact Houtput ]
  end.
Qed.

(** C10. When the client exits with code 0 or 2 and the certificate file
    is not read successfully, [sign] raises instead of returning a pair;
    when the output of the client decodes, the exception raised is the one
    of opening or reading [<home>/certificates/<subjectAltNames[0]>.pem]. *)
Theorem unreadable_chain_raises
    self csr subjectDN sans email w r w' tr argv env t n rc out :
  sign self csr subjectDN sans email (w, []) = (r, (w', tr)) ->
  RunChild argv env t (Exited n rc out) ∈ tr ->
  rc = 0%Z \/ rc = 2%Z ->
  (forall path chain, ReadText path (Returned chain) ∉ tr) ->
  exists e,
    r = Raised e
    /\ (is_Some (utf8 out) ->
        exists san, head sans = Some san
                    /\ ReadText (fullchain_path self san) (Raised e) ∈ tr).
Proof.
  intros Hrun Hin Hrc Hnone.
  by_exit_path Hrun; which_event Hin; simplify_eq.
  - exists UnicodeDecodeError. split; [done|]. intros [? ?]. congruence.
  - by destruct Hrc.
  - exfalso. apply (Hnone (fullchain_path self san) chain).
    in_trace.
  - exists e. split; [done|]. intros _. exists san. split; [done|].
    in_trace.
Qed.

(** ** The temporary directory and the deadline: claim C8 *)

(** C8. Whatever way [sign] is left by (a certificate, a returned error,
    an exception, the deadline), the temporary directory it made has been
    removed by the last call of the run and does not exist afterwards. The
    child is run with a deadline of 900 seconds; a child still running at
    the deadline makes [sign] raise [TimeoutExpired]; and no call waits
    for its child longer than 900 seconds. *)
Theorem temporary_directory_removed_and_deadline_kept
    self csr subjectDN sans email w r w' tr :
  sign self csr subjectDN sans email (w, []) = (r, (w', tr)) ->
  (forall d, Mkdtemp (u "serles-acmesh") (Returned d) ∈ tr ->
             last tr = Some (Rmtree d) /\ os_path_exists w' d = false)
  /\ (forall argv env t c,
        RunChild argv env t c ∈ tr ->
        t = 900 /\ (c = Expired -> r = Raised TimeoutExpired))
  /\ waited tr <= 900.
Proof.
  intros Hrun. by_exit_path Hrun.
  all: split;
    [ intros d0 Hd0; split; [|by apply Hgone];
      which_event Hd0; by simplify_eq
    | split;
      [ intros argv' env' t' c' Hc'; which_event Hc'; simplify_eq; by split
      | lia ] ].
Qed.

(** ** Construction: claims C3, C9 *)

(** C3. Construction returns a backend exactly when the [acmesh] section
    is there, the binary path (configured or default) is executable, the
    home path (configured or default) exists, and the plugin name and the
    credential block are given and not empty. The backend returned holds
    the checked values; in every other case construction raises and no
    backend exists. *)
Theorem construction_succeeds_iff (w : W) (config : gmap str (gmap str str)) :
  ((exists backend, __init__ w config = Returned backend)
   <-> exists section,
         config !! u "acmesh" = Some section
         /\ os_access_X_OK w (default (u "/root/.acme.sh/acme.sh")
                                (section !! u "acmesh_binary_path")) = true
         /\ os_path_exists w (default (u "/root/.acme.sh")
                                (section !! u "acmesh_home_path")) = true
         /\ (exists plugin, section !! u "dns_plugin" = Some plugin /\ plugin <> [])
         /\ (exists block, section !! u "dns_plugin_config" = Some block
                           /\ block <> []))
  /\ match __init__ w config with
     | Returned backend =>
         os_access_X_OK w (acmesh_binary_path backend) = true
         /\ os_path_exists w (acmesh_home_path backend) = true
         /\ dns_plugin backend <> []
         /\ dns_plugin_config backend <> []
     | Raised e => exists msg, e = Exception msg
     end.
Proof.
  unfold __init__.
  destruct (config !! u "acmesh") as [section|] eqn:Hsection.
  2: { split; [|by eexists]. split; [by intros [? ?]|].
       by intros (? & ? & _). }
  destruct (os_access_X_OK w _) eqn:Hx; simpl.
  2: { split; [|by eexists]. split; [by intros [? ?]|].
       intros (? & [= <-] & ? & _). congruence. }
  destruct (os_path_exists w _) eqn:Hhome; simpl.
  2: { split; [|by eexists]. split; [by intros [? ?]|].
       intros (? & [= <-] & _ & ? & _). congruence. }
  destruct (section !! u "dns_plugin") as [[|c plugin]|] eqn:Hplugin.
  1, 3: split; [|by eexists]; (split; [by intros [? ?]|]);
        intros (? & [= <-] & _ & _ & (? & ? & ?) & _); congruence.
  destruct (section !! u "dns_plugin_config") as [[|c' block]|] eqn:Hblock.
  1, 3: split; [|by eexists]; (split; [by intros [? ?]|]);
        intros (? & [= <-] & _ & _ & _ & (? & ? & ?)); congruence.
  split; [|done]. split; [|by eexists].
  intros _. exists section. repeat split; try done; by eexists.
Qed.

(** C9. The claim: the defaulted propagation wait reaches the argument
    list as a string. When [dns_sleep_time] is not configured the backend
    holds the integer 300 (and, [debug_mode] not configured, [False]); the
    argument list built by [sign] then ends in that integer, the
    conversion to an argument vector raises [TypeError], and no call of
    [sign] on this backend ever starts the client. *)
Theorem default_sleep_time_is_not_a_string
    (w : W) (config : gmap str (gmap str str)) section backend :
  config !! u "acmesh" = Some section ->
  section !! u "dns_sleep_time" = None ->
  __init__ w config = Returned backend ->
  dns_sleep_time backend = PyInt 300
  /\ (section !! u "debug_mode" = None -> debug_mode backend = PyBool false)
  /\ (forall csr_file fullchain_file,
        command backend csr_file fullchain_file !! 11%nat = Some (PyInt 300)
        /\ argv_of (command backend csr_file fullchain_file) = Raised TypeError)
  /\ (forall csr subjectDN sans email w0 r w' tr,
        sign backend csr subjectDN sans email (w0, []) = (r, (w', tr)) ->
        forall argv env t c, RunChild argv env t c ∉ tr).
Proof.
  intros Hsection Hsleep. unfold __init__. rewrite Hsection.
  destruct (negb (os_access_X_OK w _)); [done|].
  destruct (negb (os_path_exists w _)); [done|].
  destruct (section !! u "dns_plugin") as [[|c plugin]|]; try done.
  destruct (section !! u "dns_plugin_config") as [[|c' block]|]; try done.
  intros [= <-]. unfold get. rewrite Hsleep. simpl.
  assert (forall csr_file fullchain_file debug,
            argv_of
              (command
                 {| acmesh_binary_path :=
                      default (u "/root/.acme.sh/acme.sh")
                        (section !! u "acmesh_binary_path");
                    acmesh_home_path :=
                      default (u "/root/.acme.sh") (section !! u "acmesh_home_path");
                    dns_plugin := c :: plugin;
                    dns_plugin_config := c' :: block;
                    dns_sleep_time := PyInt 300;
                    debug_mode := debug |} csr_file fullchain_file)
            = Raised TypeError) as Hargv.
  { intros csr_file fullchain_file debug. unfold command. simpl.
    by destruct (truthy debug). }
  split; [done|]. split; [by intros ->|]. split.
  - intros csr_file fullchain_file. split; [|apply Hargv].
    unfold command. simpl. by destruct (truthy _).
  - intros csr subjectDN sans email w0 r w' tr Hrun argv env t child Hin.
    by_exit_path Hrun; which_event Hin;
      match goal with
      | Hok : argv_of _ = Returned _ |- _ => by rewrite Hargv in Hok
      end.
Qed.

(** ** Construction: further properties *)

(** X5. When the section is there and the binary path (configured or
    default) is not executable, construction raises an [Exception] whose
    message holds that path, whatever the other options are. *)
Theorem construction_reports_binary_path
    (w : W) (config : gmap str (gmap str str)) section :
  config !! u "acmesh" = Some section ->
  os_access_X_OK w (default (u "/root/.acme.sh/acme.sh")
                      (section !! u "acmesh_binary_path")) = false ->
  exists msg,
    __init__ w config = Raised (Exception msg)
    /\ occurs_in (default (u "/root/.acme.sh/acme.sh")
                    (section !! u "acmesh_binary_path")) msg.
Proof.
  intros Hsection Hx. unfold __init__. rewrite Hsection, Hx. simpl.
  eexists. split; [reflexivity|].
  exists (u "ACME.sh '"), (u "' not executable"). reflexivity.
Qed.

(** X6. When the binary is executable and the home path (configured or
    default) does not exist, construction raises an [Exception] whose
    message holds the home path, whatever the plugin options are. *)
Theorem construction_reports_home_path
    (w : W) (config : gmap str (gmap str str)) section :
  config !! u "acmesh" = Some section ->
  os_access_X_OK w (default (u "/root/.acme.sh/acme.sh")
                      (section !! u "acmesh_binary_path")) = true ->
  os_path_exists w (default (u "/root/.acme.sh")
                      (section !! u "acmesh_home_path")) = false ->
  exists msg,
    __init__ w config = Raised (Exception msg)
    /\ occurs_in (default (u "/root/.acme.sh") (section !! u "acmesh_home_path")) msg.
Proof.
  intros Hsection Hx Hhome. unfold __init__. rewrite Hsection, Hx, Hhome. simpl.
  eexists. split; [reflexivity|].
  exists (u "ACME.sh home path '"), (u "' does not exist."). reflexivity.
Qed.

Lemma constructed_fields
    (w : W) (config : gmap str (gmap str str)) backend :
  __init__ w config = Returned backend ->
  exists section,
    config !! u "acmesh" = Some section
    /\ acmesh_binary_path backend
       = default (u "/root/.acme.sh/acme.sh") (section !! u "acmesh_binary_path")
    /\ acmesh_home_path backend
       = default (u "/root/.acme.sh") (section !! u "acmesh_home_path")
    /\ section !! u "dns_plugin" = Some (dns_plugin backend)
    /\ section !! u "dns_plugin_config" = Some (dns_plugin_config backend)
    /\ dns_sleep_time backend
       = from_option PyStr (PyInt 300) (section !! u "dns_sleep_time")
    /\ debug_mode backend
       = from_option PyStr (PyBool false) (section !! u "debug_mode").
Proof.
  unfold __init__.
  destruct (config !! u "acmesh") as [section|]; [|done].
  destruct (negb (os_access_X_OK w _)); [done|].
  destruct (negb (os_path_exists w _)); [done|].
  destruct (section !! u "dns_plugin") as [[|c plugin]|] eqn:Hplugin; try done.
  destruct (section !! u "dns_plugin_config") as [[|c' block]|] eqn:Hblock; try done.
  intros [= <-]. exists section. unfold get. simpl.
  repeat split; done.
Qed.

(** X7. A constructed backend holds the configuration it was built from:
    the configured or default paths, the configured plugin name and
    credential block, and for the propagation wait and the debug flag the
    configured text or the fallbacks 300 and [False]. *)
Theorem construction_keeps_configuration
    (w : W) (config : gmap str (gmap str str)) backend :
  __init__ w config = Returned backend ->
  exists section,
    config !! u "acmesh" = Some section
    /\ acmesh_binary_path backend
       = default (u "/root/.acme.sh/acme.sh") (section !! u "acmesh_binary_path")
    /\ acmesh_home_path backend
       = default (u "/root/.acme.sh") (section !! u "acmesh_home_path")
    /\ section !! u "dns_plugin" = Some (dns_plugin backend)
    /\ section !! u "dns_plugin_config" = Some (dns_plugin_config backend)
    /\ dns_sleep_time backend
       = from_option PyStr (PyInt 300) (section !! u "dns_sleep_time")
    /\ debug_mode backend
       = from_option PyStr (PyBool false) (section !! u "debug_mode").
Proof. apply constructed_fields. Qed.

Lemma argv_of_command self csr_file fullchain_file argv :
  argv_of (command self csr_file fullchain_file) = Returned argv ->
  exists sleep,
    dns_sleep_time self = PyStr sleep
    /\ argv = [ acmesh_binary_path self; u "--sign-csr"; u "--csr"; csr_file;
                u "--dns"; dns_plugin self; u "--fullchain-file"; fullchain_file;
                u "--home"; acmesh_home_path self; u "--dnssleep"; sleep ]
              ++ (if truthy (debug_mode self) then [u "--debug"] else []).
Proof.
  unfold command.
  destruct (dns_sleep_time self) as [sleep|z|v]; destruct (truthy (debug_mode self));
    simpl; intros [= <-]; by eexists.
Qed.

(** X8. When the propagation wait is configured, the argument list that
    [sign] builds converts to an argument vector: the binary, [--sign-csr],
    [--csr] and the CSR file, [--dns] and the plugin, [--fullchain-file] and
    the chain file, [--home] and the home path, [--dnssleep] and the
    configured text, followed by [--debug] exactly when the debug option is
    configured with a non-empty text. *)
Theorem configured_sleep_time_gives_argument_vector
    (w : W) (config : gmap str (gmap str str)) section backend sleep :
  config !! u "acmesh" = Some section ->
  section !! u "dns_sleep_time" = Some sleep ->
  __init__ w config = Returned backend ->
  forall csr_file fullchain_file,
    argv_of (command backend csr_file fullchain_file)
    = Returned
        ([ acmesh_binary_path backend; u "--sign-csr"; u "--csr"; csr_file;
           u "--dns"; dns_plugin backend; u "--fullchain-file"; fullchain_file;
           u "--home"; acmesh_home_path backend; u "--dnssleep"; sleep ]
         ++ match section !! u "debug_mode" with
            | Some (_ :: _) => [u "--debug"]
            | _ => []
            end).
Proof.
  intros Hsection Hsleep Hinit csr_file fullchain_file.
  destruct (constructed_fields w config backend Hinit)
    as (section' & Hsection' & _ & _ & _ & _ & Hs & Hd).
  assert (section' = section) as -> by congruence.
  rewrite Hsleep in Hs. simpl in Hs.
  unfold command. rewrite Hs, Hd.
  by destruct (section !! u "debug_mode") as [[|c v]|].
Qed.

(** X9. The debug option is read as a text and tested for truth: any
    non-empty text, [false] and [0] included, puts [--debug] at the end of
    the argument list; an absent or empty option puts nothing there. *)
Theorem debug_flag_follows_truthiness
    (w : W) (config : gmap str (gmap str str)) section backend :
  config !! u "acmesh" = Some section ->
  __init__ w config = Returned backend ->
  forall csr_file fullchain_file,
    command backend csr_file fullchain_file !! 12%nat
    = match section !! u "debug_mode" with
      | Some (_ :: _) => Some (PyStr (u "--debug"))
      | _ => None
      end.
Proof.
  intros Hsection Hinit csr_file fullchain_file.
  destruct (constructed_fields w config backend Hinit)
    as (section' & Hsection' & _ & _ & _ & _ & _ & Hd).
  assert (section' = section) as -> by congruence.
  unfold command. rewrite Hd.
  by destruct (section !! u "debug_mode") as [[|c v]|].
Qed.

(** ** The signing call: further properties *)

Lemma utf8_ascii bs : ascii_only bs -> utf8 bs = Some (Byte.to_N <$> bs).
Proof.
  induction 1 as [|x bs Hx _ IH]; [done|]. simpl.
  apply N.ltb_lt in Hx. by rewrite Hx, IH.
Qed.

(** X10. When the client exits with code 0 and what it printed decodes as
    UTF-8, [sign] reads [<home>/certificates/<subjectAltNames[0]>.pem] and
    returns what was read with no error; when the read fails, it raises the
    exception of the read. *)
Theorem issued_certificate_is_returned
    self csr subjectDN sans email w r w' tr argv env t n out :
  sign self csr subjectDN sans email (w, []) = (r, (w', tr)) ->
  RunChild argv env t (Exited n 0 out) ∈ tr ->
  is_Some (utf8 out) ->
  exists san rd,
    head sans = Some san
    /\ ReadText (fullchain_path self san) rd ∈ tr
    /\ r = match rd with
           | Returned chain => Returned (Some chain, None)
           | Raised e => Raised e
           end.
Proof.
  intros Hrun Hin [output Hout].
  by_exit_path Hrun; which_event Hin; simplify_eq.
  - exists san, (Returned chain). split; [done|]. split; [|done]. in_trace.
  - exists san, (Raised e). split; [done|]. split; [|done]. in_trace.
Qed.

(** X11. A pair returned by [sign] has exactly one component: a certificate
    chain and no error, or no certificate and an error message. *)
Theorem result_has_exactly_one_component
    self csr subjectDN sans email w chain error w' tr :
  sign self csr subjectDN sans email (w, []) = (Returned (chain, error), (w', tr)) ->
  (is_Some chain /\ error = None) \/ (chain = None /\ is_Some error).
Proof.
  intros Hrun. remember (Returned (chain, error)) as r eqn:Hr.
  by_exit_path Hrun; simplify_eq.
  - right. split; [done | by eexists].
  - left. split; [by eexists | done].
Qed.

(** X12. With an empty list of subject alternative names [sign] raises and
    never starts the client; once the CSR is staged and the certificates
    directory is there, the exception is [IndexError]. *)
Theorem no_subject_alt_name_raises self csr subjectDN email w r w' tr :
  sign self csr subjectDN [] email (w, []) = (r, (w', tr)) ->
  (exists e, r = Raised e)
  /\ (forall argv env t c, RunChild argv env t c ∉ tr)
  /\ (forall path, Makedirs path (Returned tt) ∈ tr -> r = Raised IndexError).
Proof.
  intros Hrun. remember [] as sans eqn:Hsans.
  by_exit_path Hrun; simplify_eq.
  all: split; [by eexists|]; split;
    [ intros argv' env' t' c' Hc'; which_event Hc'
    | intros path Hpath; which_event Hpath; done ].
Qed.

(** X13. A child is started only after the CSR was written to [csr.pem] in
    the temporary directory and the certificates directory was ensured, and
    its argument vector is the binary followed by [--sign-csr], [--csr] and
    that CSR file, [--dns] and the plugin, [--fullchain-file] and
    [<home>/certificates/<subjectAltNames[0]>.pem], [--home] and the home
    path, [--dnssleep] and the configured wait, and [--debug] when the debug
    value is true. *)
Theorem child_argument_vector
    self csr subjectDN sans email w r w' tr argv env t c :
  sign self csr subjectDN sans email (w, []) = (r, (w', tr)) ->
  RunChild argv env t c ∈ tr ->
  exists d san sleep,
    Mkdtemp (u "serles-acmesh") (Returned d) ∈ tr
    /\ WriteBinary (d ++ u "/csr.pem") csr (Returned tt) ∈ tr
    /\ Makedirs (acmesh_home_path self ++ u "/certificates/") (Returned tt) ∈ tr
    /\ head sans = Some san
    /\ dns_sleep_time self = PyStr sleep
    /\ argv = [ acmesh_binary_path self; u "--sign-csr";
                u "--csr"; d ++ u "/csr.pem";
                u "--dns"; dns_plugin self;
                u "--fullchain-file";
                acmesh_home_path self ++ u "/certificates/" ++ san ++ u ".pem";
                u "--home"; acmesh_home_path self;
                u "--dnssleep"; sleep ]
              ++ (if truthy (debug_mode self) then [u "--debug"] else []).
Proof.
  intros Hrun Hin. by_exit_path Hrun; which_event Hin; simplify_eq.
  all: match goal with
       | Hargv : argv_of (command _ (?d ++ _) (fullchain_path _ ?san)) = Returned _ |- _ =>
           apply argv_of_command in Hargv as (sleep & Hsleep & ->);
           exists d, san, sleep; repeat split; try done; in_trace
       end.
Qed.

(** X14. The only file [sign] writes is [csr.pem] in its temporary
    directory, holding the CSR; the only file it reads is
    [<home>/certificates/<subjectAltNames[0]>.pem], and only after a child
    that exited with code 0 or 2 and printed decodable output. *)
Theorem only_csr_written_only_chain_read
    self csr subjectDN sans email w r w' tr :
  sign self csr subjectDN sans email (w, []) = (r, (w', tr)) ->
  (forall path data answer,
     WriteBinary path data answer ∈ tr ->
     data = csr
     /\ exists d, Mkdtemp (u "serles-acmesh") (Returned d) ∈ tr
                  /\ path = d ++ u "/csr.pem")
  /\ (forall path answer,
        ReadText path answer ∈ tr ->
        exists san argv env n rc out,
          head sans = Some san
          /\ path = fullchain_path self san
          /\ RunChild argv env 900 (Exited n rc out) ∈ tr
          /\ (rc = 0%Z \/ rc = 2%Z)
          /\ is_Some (utf8 out)).
Proof.
  intros Hrun. by_exit_path Hrun.
  all: split;
    [ intros path data answer Hwr; which_event Hwr; simplify_eq;
      (split; [done|]); eexists; (split; [in_trace | done])
    | intros path answer Hrd; which_event Hrd; simplify_eq ].
  all: eexists _, _, _, _, _, _; split; [done|]; split; [done|];
    split; [in_trace|]; split; [tauto | by eexists].
Qed.

(** X15. When the client cannot be started, [sign] raises the exception of
    the failed start. *)
Theorem client_not_started_raises
    self csr subjectDN sans email w r w' tr argv env t e :
  sign self csr subjectDN sans email (w, []) = (r, (w', tr)) ->
  RunChild argv env t (NotStarted e) ∈ tr ->
  r = Raised e.
Proof.
  intros Hrun Hin. by_exit_path Hrun; which_event Hin; by simplify_eq.
Qed.

(** X16. When the client exits with a code other than 0 and 2 and printed
    only ASCII, the error message is [acme.sh exited with error <code> and
    output:], a line feed, and what was printed, character for character. *)
Theorem ascii_output_is_reported_verbatim
    self csr subjectDN sans email w r w' tr argv env t n rc out :
  sign self csr subjectDN sans email (w, []) = (r, (w', tr)) ->
  RunChild argv env t (Exited n rc out) ∈ tr ->
  rc <> 0%Z -> rc <> 2%Z ->
  ascii_only out ->
  r = Returned
        (None,
         Some (u "acme.sh exited with error " ++ str_of_int rc
               ++ u " and output:" ++ [LF] ++ (Byte.to_N <$> out))).
Proof.
  intros Hrun Hin Hrc0 Hrc2 Hascii. apply utf8_ascii in Hascii.
  by_exit_path Hrun; which_event Hin; simplify_eq;
    try match goal with Hok : _ = 2%Z \/ _ = 0%Z |- _ => by destruct Hok end.
  done.
Qed.

(** X17. One call of [sign] starts at most one child process: a failed
    client is not run again. *)
Theorem at_most_one_child self csr subjectDN sans email w r w' tr :
  sign self csr subjectDN sans email (w, []) = (r, (w', tr)) ->
  (children tr <= 1)%nat.
Proof. intros Hrun. by_exit_path Hrun; lia. Qed.

End Runs.

(** ** Concrete runs *)

Lemma m_rmtree_gone d w : m_exists (m_rmtree d w) d = false.
Proof.
  unfold m_exists, m_rmtree; simpl.
  apply orb_false_iff; split; apply bool_decide_eq_false.
  - rewrite elem_of_filter. intros [Hn _]. apply Hn. by left.
  - intros [x Hx]. apply map_lookup_filter_Some in Hx as [_ Hn].
    apply Hn. by left.
Qed.

Lemma m_run_child_deadline argv env t w n rc out w' :
  m_run_child argv env t w = (Exited n rc out, w') -> n <= t.
Proof.
  unfold m_run_child. destruct argv as [|binary rest]; [discriminate|].
  case_bool_decide; [|discriminate].
  destruct (runtime _) as [k|]; [|discriminate].
  destruct (N.leb_spec k t); [|discriminate].
  by intros [= <- _ _ _].
Qed.

#[global] Instance machine_lawful : LawfulOS machine.
Proof. split; [apply m_rmtree_gone | apply m_run_child_deadline]. Qed.

Lemma run_with_eq bh :
  sign configured_backend (b "CSR") (u "CN=example.com") [u "example.com"]
    (u "admin@example.com") (example_machine bh, [])
  = ((run_with bh).1, ((run_with bh).2.1, (run_with bh).2.2)).
Proof. unfold run_with. by destruct (sign _ _ _ _ _ _) as [? [? ?]]. Qed.

Example construction_ex :
  __init__ (example_machine issues)
    (<[u "acmesh" := <[u "dns_sleep_time" := u "120"]> example_section]> ∅)
  = Returned configured_backend.
Proof. vm_compute. reflexivity. Qed.

(** The fourth call of a run that reached the client is the run of the
    child. *)
Ltac fourth_event := apply (list_elem_of_lookup_2 _ 3%nat); vm_compute; reflexivity.

(** C2, as stated, fails: the process environment holds [PATH], the
    environment handed to the child does not, so it is not the translated
    block laid over the inherited environment. *)
Lemma inherited_environment_is_not_passed :
  os_environ (example_machine issues) !! u "PATH" = Some (u "/usr/bin")
  /\ exists argv env c translated,
       RunChild argv env 900 c ∈ (run_with issues).2.2
       /\ _parse_dns_plugin_config (dns_plugin_config configured_backend)
          = Returned translated
       /\ env !! u "PATH" = None
       /\ env <> translated ∪ os_environ (example_machine issues).
Proof.
  split; [by vm_compute|].
  eexists _, _, _, _. split; [fourth_event|].
  split; [vm_compute; reflexivity|].
  split; [by vm_compute|].
  intros Heq. apply (f_equal (fun m => m !! u "PATH")) in Heq.
  by vm_compute in Heq.
Qed.

Lemma child_environment_is_translated_block_witness :
  exists env,
    _parse_dns_plugin_config (dns_plugin_config configured_backend) = Returned env
    /\ env !! u "pdns_ttl" = Some (u "60").
Proof.
  eexists. split.
  - eapply (child_environment_is_translated_block
              configured_backend (b "CSR") (u "CN=example.com") [u "example.com"]
              (u "admin@example.com") (example_machine issues)).
    + apply run_with_eq.
    + fourth_event.
  - by vm_compute.
Defined.

(** C6, as stated, fails: the client exits with code 2 and the certificate
    file is there and readable, but what the client printed is not UTF-8, so
    [sign] raises before it looks at the exit code. *)
Lemma undecodable_output_hides_issued_certificate :
  (exists argv env,
     RunChild argv env 900 (Exited 30 2 [xff]) ∈ (run_with already_issued_garbled).2.2)
  /\ (read_text chain_path (run_with already_issued_garbled).2.1).1
     = Returned (u "CHAIN")
  /\ (run_with already_issued_garbled).1 = Raised UnicodeDecodeError.
Proof.
  split; [eexists _, _; fourth_event|].
  split; vm_compute; reflexivity.
Qed.

Lemma already_issued_reads_chain_witness :
  exists san rd,
    head [u "example.com"] = Some san
    /\ ReadText (fullchain_path configured_backend san) rd
       ∈ (run_with already_issued).2.2
    /\ (run_with already_issued).1
       = match rd with
         | Returned chain => Returned (Some chain, None)
         | Raised e => Raised e
         end.
Proof.
  eapply (already_issued_reads_chain
            configured_backend (b "CSR") (u "CN=example.com") [u "example.com"]
            (u "admin@example.com") (example_machine already_issued)).
  - apply run_with_eq.
  - fourth_event.
  - vm_compute. by eexists.
Defined.

Example already_issued_ex :
  (run_with already_issued).1 = Returned (Some (u "CHAIN"), None).
Proof. vm_compute. reflexivity. Qed.

(** C7, as stated, fails: the client exits with code 5, but what it printed
    is not UTF-8, so [sign] raises instead of returning the pair. *)
Lemma undecodable_output_hides_client_failure :
  (exists argv env,
     RunChild argv env 900 (Exited 30 5 [xff]) ∈ (run_with dns_failure_garbled).2.2)
  /\ (run_with dns_failure_garbled).1 = Raised UnicodeDecodeError.
Proof.
  split; [eexists _, _; fourth_event|].
  vm_compute; reflexivity.
Qed.

Lemma client_failure_is_reported_witness :
  exists msg,
    (run_with dns_failure).1 = Returned (None, Some msg)
    /\ occurs_in (str_of_int 5) msg
    /\ occurs_in (u "DNS record not found") msg
    /\ (5%Z = 5%Z -> b "DNS record not found" = b "DNS record not found" ->
        occurs_in (u "5") msg /\ occurs_in (u "DNS record not found") msg).
Proof.
  eapply (client_failure_is_reported
            configured_backend (b "CSR") (u "CN=example.com") [u "example.com"]
            (u "admin@example.com") (example_machine dns_failure)).
  - apply run_with_eq.
  - fourth_event.
  - done.
  - done.
  - vm_compute. reflexivity.
Defined.

Lemma unreadable_chain_raises_witness :
  exists e,
    (run_with forgets_chain).1 = Raised e
    /\ (is_Some (utf8 (b "Cert success.")) ->
        exists san, head [u "example.com"] = Some san
                    /\ ReadText (fullchain_path configured_backend san) (Raised e)
                       ∈ (run_with forgets_chain).2.2).
Proof.
  eapply (unreadable_chain_raises
            configured_backend (b "CSR") (u "CN=example.com") [u "example.com"]
            (u "admin@example.com") (example_machine forgets_chain)).
  - apply run_with_eq.
  - fourth_event.
  - by left.
  - intros path chain Hin. vm_compute in Hin.
    repeat (apply elem_of_cons in Hin as [Hin|Hin]; [discriminate Hin|]).
    by apply elem_of_nil in Hin.
Defined.

Example unreadable_chain_ex :
  (run_with forgets_chain).1 = Raised (OSError (u "FileNotFoundError")).
Proof. vm_compute. reflexivity. Qed.

Lemma temporary_directory_removed_and_deadline_kept_witness :
  (forall d, Mkdtemp (u "serles-acmesh") (Returned d) ∈ (run_with hangs).2.2 ->
             last (run_with hangs).2.2 = Some (Rmtree d)
             /\ os_path_exists (run_with hangs).2.1 d = false)
  /\ (forall argv env t c,
        RunChild argv env t c ∈ (run_with hangs).2.2 ->
        t = 900 /\ (c = Expired -> (run_with hangs).1 = Raised TimeoutExpired))
  /\ waited (run_with hangs).2.2 <= 900.
Proof.
  apply (temporary_directory_removed_and_deadline_kept
           configured_backend (b "CSR") (u "CN=example.com") [u "example.com"]
           (u "admin@example.com") (example_machine hangs)).
  apply run_with_eq.
Defined.

Example hanging_client_ex :
  (run_with hangs).1 = Raised TimeoutExpired
  /\ waited (run_with hangs).2.2 = 900
  /\ last (run_with hangs).2.2 = Some (Rmtree (u "/tmp/serles-acmesh7"))
  /\ os_path_exists (run_with hangs).2.1 (u "/tmp/serles-acmesh7") = false
  /\ os_path_exists (run_with hangs).2.1 (u "/tmp/serles-acmesh7/csr.pem") = false.
Proof. vm_compute. done. Qed.

Lemma default_sleep_time_is_not_a_string_witness :
  exists backend,
    __init__ (example_machine issues) example_config = Returned backend
    /\ dns_sleep_time backend = PyInt 300
    /\ (example_section !! u "debug_mode" = None -> debug_mode backend = PyBool false)
    /\ (forall csr_file fullchain_file,
          command backend csr_file fullchain_file !! 11%nat = Some (PyInt 300)
          /\ argv_of (command backend csr_file fullchain_file) = Raised TypeError)
    /\ (forall csr subjectDN sans email w0 r w' tr,
          sign backend csr subjectDN sans email (w0, []) = (r, (w', tr)) ->
          forall argv env t c, RunChild argv env t c ∉ tr).
Proof.
  eexists. split; [vm_compute; reflexivity|].
  apply (default_sleep_time_is_not_a_string
           (example_machine issues) example_config example_section).
  - vm_compute. reflexivity.
  - vm_compute. reflexivity.
  - vm_compute. reflexivity.
Defined.

Example default_sleep_time_ex :
  match __init__ (example_machine issues) example_config with
  | Returned backend =>
      (sign backend (b "CSR") (u "CN=example.com") [u "example.com"]
         (u "admin@example.com") (example_machine issues, [])).1
  | Raised e => Raised e
  end = Raised TypeError.
Proof. vm_compute. reflexivity. Qed.

(** ** Concrete runs of the further properties *)

Lemma run_on_eq w sans :
  sign configured_backend (b "CSR") (u "CN=example.com") sans
    (u "admin@example.com") (w, [])
  = ((run_on w sans).1, ((run_on w sans).2.1, (run_on w sans).2.2)).
Proof. unfold run_on. by destruct (sign _ _ _ _ _ _) as [? [? ?]]. Qed.

Lemma blank_block_translates_to_nothing_witness :
  _parse_dns_plugin_config [32; LF; 9; CR; LF] = Returned ∅.
Proof.
  apply (blank_block_translates_to_nothing [32; LF; 9; CR; LF]).
  apply (bool_decide_unpack _). vm_compute. exact I.
Defined.

Lemma surrounding_blank_is_ignored_witness :
  _parse_dns_plugin_config ([LF; 32; 32] ++ u "a = 1" ++ [9; LF; LF])
  = _parse_dns_plugin_config (u "a = 1").
Proof.
  apply (surrounding_blank_is_ignored [LF; 32; 32] (u "a = 1") [9; LF; LF]).
  - apply (bool_decide_unpack _). vm_compute. exact I.
  - apply (bool_decide_unpack _). vm_compute. exact I.
Defined.

Lemma translated_entries_are_trimmed_witness :
  strip (u "pdns_ttl") = u "pdns_ttl" /\ strip (u "60") = u "60"
  /\ (EQUALS ∉ u "pdns_ttl")
  /\ Forall (fun c => islinebreak c = false) (u "pdns_ttl")
  /\ Forall (fun c => islinebreak c = false) (u "60")
  /\ exists line,
       line ∈ splitlines (strip (dns_plugin_config configured_backend))
       /\ u "pdns_ttl" = strip (partition EQUALS (strip line)).1.1
       /\ u "60" = strip (partition EQUALS (strip line)).2.
Proof.
  eapply (translated_entries_are_trimmed (dns_plugin_config configured_backend)).
  - vm_compute. reflexivity.
  - vm_compute. reflexivity.
Defined.

Lemma line_ending_does_not_matter_witness :
  _parse_dns_plugin_config
    ([] ++ join_with [CR; LF] (line_of <$> [(u "a ", u " 1"); (u "b", u "2")]) ++ [CR; LF])
  = _parse_dns_plugin_config
      ([] ++ join_lines (line_of <$> [(u "a ", u " 1"); (u "b", u "2")]) ++ [CR; LF]).
Proof.
  apply (line_ending_does_not_matter [CR; LF] [] [CR; LF]
           [(u "a ", u " 1"); (u "b", u "2")]).
  - apply (bool_decide_unpack _). vm_compute. exact I.
  - apply (bool_decide_unpack _). vm_compute. exact I.
  - apply (bool_decide_unpack _). vm_compute. exact I.
  - apply (bool_decide_unpack _). vm_compute. exact I.
Defined.

Lemma construction_reports_binary_path_witness :
  exists msg,
    __init__ bare_machine example_config = Raised (Exception msg)
    /\ occurs_in (default (u "/root/.acme.sh/acme.sh")
                    (example_section !! u "acmesh_binary_path")) msg.
Proof.
  apply (construction_reports_binary_path bare_machine example_config example_section).
  - vm_compute. reflexivity.
  - vm_compute. reflexivity.
Defined.

Lemma construction_reports_home_path_witness :
  exists msg,
    __init__ homeless_machine example_config = Raised (Exception msg)
    /\ occurs_in (default (u "/root/.acme.sh")
                    (example_section !! u "acmesh_home_path")) msg.
Proof.
  apply (construction_reports_home_path homeless_machine example_config example_section).
  - vm_compute. reflexivity.
  - vm_compute. reflexivity.
  - vm_compute. reflexivity.
Defined.

Lemma construction_keeps_configuration_witness :
  exists section,
    configured_config !! u "acmesh" = Some section
    /\ acmesh_binary_path configured_backend
       = default (u "/root/.acme.sh/acme.sh") (section !! u "acmesh_binary_path")
    /\ acmesh_home_path configured_backend
       = default (u "/root/.acme.sh") (section !! u "acmesh_home_path")
    /\ section !! u "dns_plugin" = Some (dns_plugin configured_backend)
    /\ section !! u "dns_plugin_config" = Some (dns_plugin_config configured_backend)
    /\ dns_sleep_time configured_backend
       = from_option PyStr (PyInt 300) (section !! u "dns_sleep_time")
    /\ debug_mode configured_backend
       = from_option PyStr (PyBool false) (section !! u "debug_mode").
Proof.
  apply (construction_keeps_configuration (example_machine issues) configured_config).
  vm_compute. reflexivity.
Defined.

Lemma configured_sleep_time_gives_argument_vector_witness :
  argv_of (command configured_backend (u "/tmp/serles-acmesh7/csr.pem") chain_path)
  = Returned
      ([ acmesh_binary_path configured_backend; u "--sign-csr";
         u "--csr"; u "/tmp/serles-acmesh7/csr.pem";
         u "--dns"; dns_plugin configured_backend;
         u "--fullchain-file"; chain_path;
         u "--home"; acmesh_home_path configured_backend; u "--dnssleep"; u "120" ]
       ++ match (<[u "dns_sleep_time" := u "120"]> example_section) !! u "debug_mode" with
          | Some (_ :: _) => [u "--debug"]
          | _ => []
          end).
Proof.
  apply (configured_sleep_time_gives_argument_vector
           (example_machine issues) configured_config
           (<[u "dns_sleep_time" := u "120"]> example_section)
           configured_backend (u "120")).
  - vm_compute. reflexivity.
  - vm_compute. reflexivity.
  - vm_compute. reflexivity.
Defined.

Lemma debug_flag_follows_truthiness_witness :
  exists backend,
    __init__ (example_machine issues) debug_false_config = Returned backend
    /\ forall csr_file fullchain_file,
         command backend csr_file fullchain_file !! 12%nat
         = match (<[u "debug_mode" := u "false"]>
                    (<[u "dns_sleep_time" := u "120"]> example_section))
                 !! u "debug_mode" with
           | Some (_ :: _) => Some (PyStr (u "--debug"))
           | _ => None
           end.
Proof.
  eexists. split; [vm_compute; reflexivity|].
  apply (debug_flag_follows_truthiness (example_machine issues) debug_false_config).
  - vm_compute. reflexivity.
  - vm_compute. reflexivity.
Defined.

Example debug_false_ex :
  match __init__ (example_machine issues) debug_false_config with
  | Returned backend => command backend [] [] !! 12%nat
  | Raised _ => None
  end = Some (PyStr (u "--debug")).
Proof. vm_compute. reflexivity. Qed.

Lemma issued_certificate_is_returned_witness :
  exists san rd,
    head [u "example.com"] = Some san
    /\ ReadText (fullchain_path configured_backend san) rd ∈ (run_with issues).2.2
    /\ (run_with issues).1
       = match rd with
         | Returned chain => Returned (Some chain, None)
         | Raised e => Raised e
         end.
Proof.
  eapply (issued_certificate_is_returned
            configured_backend (b "CSR") (u "CN=example.com") [u "example.com"]
            (u "admin@example.com") (example_machine issues)).
  - apply run_with_eq.
  - fourth_event.
  - vm_compute. by eexists.
Defined.

Lemma result_has_exactly_one_component_witness :
  (is_Some (None : option str)
   /\ Some (failure_message 5 (u "DNS record not found")) = None)
  \/ ((None : option str) = None
      /\ is_Some (Some (failure_message 5 (u "DNS record not found")))).
Proof.
  apply (result_has_exactly_one_component
           configured_backend (b "CSR") (u "CN=example.com") [u "example.com"]
           (u "admin@example.com") (example_machine dns_failure)
           None (Some (failure_message 5 (u "DNS record not found")))
           (run_with dns_failure).2.1 (run_with dns_failure).2.2).
  vm_compute. reflexivity.
Defined.

Lemma no_subject_alt_name_raises_witness :
  (exists e, (run_on (example_machine issues) []).1 = Raised e)
  /\ (forall argv env t c,
        RunChild argv env t c ∉ (run_on (example_machine issues) []).2.2)
  /\ (forall path,
        Makedirs path (Returned tt) ∈ (run_on (example_machine issues) []).2.2 ->
        (run_on (example_machine issues) []).1 = Raised IndexError).
Proof.
  eapply (no_subject_alt_name_raises
           configured_backend (b "CSR") (u "CN=example.com")
           (u "admin@example.com") (example_machine issues)).
  apply run_on_eq.
Defined.

Lemma child_argument_vector_witness :
  exists argv d san sleep,
    (run_with issues).2.2 !! 3%nat
    = Some (RunChild argv (written_in_order
                             [(u "pdns_url", u "https://pdns.example.com");
                              (u "pdns_token", u "your_api_token");
                              (u "pdns_serverid", u "localhost");
                              (u "pdns_ttl", u "60")])
              900 (Exited 30 0 (b "Cert success.")))
    /\ Mkdtemp (u "serles-acmesh") (Returned d) ∈ (run_with issues).2.2
    /\ WriteBinary (d ++ u "/csr.pem") (b "CSR") (Returned tt) ∈ (run_with issues).2.2
    /\ Makedirs (acmesh_home_path configured_backend ++ u "/certificates/") (Returned tt)
       ∈ (run_with issues).2.2
    /\ head [u "example.com"] = Some san
    /\ dns_sleep_time configured_backend = PyStr sleep
    /\ argv = [ acmesh_binary_path configured_backend; u "--sign-csr";
                u "--csr"; d ++ u "/csr.pem";
                u "--dns"; dns_plugin configured_backend;
                u "--fullchain-file";
                acmesh_home_path configured_backend ++ u "/certificates/" ++ san ++ u ".pem";
                u "--home"; acmesh_home_path configured_backend;
                u "--dnssleep"; sleep ]
              ++ (if truthy (debug_mode configured_backend) then [u "--debug"] else []).
Proof.
  eexists. 
  assert ((run_with issues).2.2 !! 3%nat
          = Some (RunChild
                    [u "/root/.acme.sh/acme.sh"; u "--sign-csr"; u "--csr";
                     u "/tmp/serles-acmesh7/csr.pem"; u "--dns"; u "dns_pdns";
                     u "--fullchain-file"; chain_path; u "--home"; u "/root/.acme.sh";
                     u "--dnssleep"; u "120"]
                    (written_in_order
                       [(u "pdns_url", u "https://pdns.example.com");
                        (u "pdns_token", u "your_api_token");
                        (u "pdns_serverid", u "localhost");
                        (u "pdns_ttl", u "60")])
                    900 (Exited 30 0 (b "Cert success.")))) as Hfourth.
  { vm_compute. reflexivity. }
  destruct (child_argument_vector
              configured_backend (b "CSR") (u "CN=example.com") [u "example.com"]
              (u "admin@example.com") (example_machine issues)
              _ _ _ _ _ _ _ (run_with_eq issues)
              (list_elem_of_lookup_2 _ 3%nat _ Hfourth))
    as (d & san & sleep & Hrest).
  exists d, san, sleep. split; [exact Hfourth | exact Hrest].
Defined.

Lemma only_csr_written_only_chain_read_witness :
  (forall path data answer,
     WriteBinary path data answer ∈ (run_with issues).2.2 ->
     data = b "CSR"
     /\ exists d, Mkdtemp (u "serles-acmesh") (Returned d) ∈ (run_with issues).2.2
                  /\ path = d ++ u "/csr.pem")
  /\ (forall path answer,
        ReadText path answer ∈ (run_with issues).2.2 ->
        exists san argv env n rc out,
          head [u "example.com"] = Some san
          /\ path = fullchain_path configured_backend san
          /\ RunChild argv env 900 (Exited n rc out) ∈ (run_with issues).2.2
          /\ (rc = 0%Z \/ rc = 2%Z)
          /\ is_Some (utf8 out)).
Proof.
  eapply (only_csr_written_only_chain_read
           configured_backend (b "CSR") (u "CN=example.com") [u "example.com"]
           (u "admin@example.com") (example_machine issues)).
  apply run_with_eq.
Defined.

Lemma client_not_started_raises_witness :
  (run_on bare_machine [u "example.com"]).1 = Raised (OSError (u "PermissionError")).
Proof.
  eapply (client_not_started_raises
            configured_backend (b "CSR") (u "CN=example.com") [u "example.com"]
            (u "admin@example.com") bare_machine).
  - apply run_on_eq.
  - fourth_event.
Defined.

Lemma ascii_output_is_reported_verbatim_witness :
  (run_with dns_failure).1
  = Returned
      (None,
       Some (u "acme.sh exited with error " ++ str_of_int 5
             ++ u " and output:" ++ [LF]
             ++ (Byte.to_N <$> b "DNS record not found"))).
Proof.
  eapply (ascii_output_is_reported_verbatim
            configured_backend (b "CSR") (u "CN=example.com") [u "example.com"]
            (u "admin@example.com") (example_machine dns_failure)).
  - apply run_with_eq.
  - fourth_event.
  - done.
  - done.
  - apply (bool_decide_unpack _). vm_compute. exact I.
Defined.

Lemma at_most_one_child_witness :
  (children (run_with dns_failure).2.2 <= 1)%nat.
Proof.
  apply (at_most_one_child
           configured_backend (b "CSR") (u "CN=example.com") [u "example.com"]
           (u "admin@example.com") (example_machine dns_failure)
           (run_with dns_failure).1 (run_with dns_failure).2.1).
  apply run_with_eq.
Defined.
